(** * MCPClient (src/client.ts): command rewriting, transport selection,
      connection retry loop and the tool operations.

    The class [MCPClient] of client.ts is embedded as follows.
    - JavaScript strings are [string]; optional fields are [option]; the
      [env] object, used as a string-to-string dictionary, is a [gmap].
    - The three [generate*Command] methods and [isSSEUrl] are pure functions
      of their argument, the platform name and the runtime's URL parser.
    - The methods that talk to the protocol SDK ([connectToServer],
      [listTools], [callTool]) run in a small state-and-exception monad over
      the fields of the object, the state of the SDK client, and the
      sequence of events of the run (calls of the rewriter, SDK calls, timers,
      log lines). *)

From stdpp Require Import gmap strings list fin_maps.

Open Scope string_scope.
Open Scope Z_scope.
Open Scope list_scope.

(** ** JavaScript helpers *)

(** Truthiness of an optional string: [undefined] and [''] are falsy. *)
Definition truthy (s : option string) : bool :=
  match s with
  | Some (String _ _) => true
  | _ => false
  end.

(** [s || ''] *)
Definition or_empty (s : option string) : string :=
  if truthy s then default "" s else "".

(** [s || undefined] *)
Definition or_undefined (s : option string) : option string :=
  if truthy s then s else None.

(** [a.join(sep)] on an array of strings. *)
Fixpoint join (sep : string) (a : list string) : string :=
  match a with
  | [] => ""
  | [x] => x
  | x :: rest => x +:+ sep +:+ join sep rest
  end.

(** [s.startsWith(p)] *)
Definition startsWith (s p : string) : bool := String.prefix p s.

(** ** Configuration *)

(** Modelled from the spec: types.ts, which declares [MCPClientConfig], is
    not among the sources.  The fields are the ones client.ts reads, all
    optional inside [serverConfig] (spec, sections 3 and 6). *)
Record ServerConfig := {
  command : option string;
  args : option (list string);
  env : option (gmap string string);
  cwd : option string;
  sseUrl : option string;
}.

Record MCPClientConfig := {
  transportType : string;
  serverConfig : ServerConfig;
}.

(** ** Command rewriting *)

Definition npmMirrorRegistry : string := "https://registry.npmmirror.com".
Definition uvDefaultIndex : string := "https://pypi.tuna.tsinghua.edu.cn/simple".

Section Rewriter.

(** [process.platform] *)
Variable platform : string.

Definition generateNpxCommand (serverConfig : ServerConfig) : ServerConfig :=
  let currentNpxPath := "npx" in
  let args_ := default [] (args serverConfig) in
  let env_ := default ∅ (env serverConfig) in
  let cwd_ := or_undefined (cwd serverConfig) in
  if String.eqb platform "win32" then
    {| command := Some "cmd";
       args := Some ("/c" :: currentNpxPath
                     :: ("--registry=" +:+ npmMirrorRegistry) :: args_);
       env := Some (<["NPM_CONFIG_REGISTRY" := npmMirrorRegistry]> env_);
       cwd := cwd_;
       sseUrl := None |}
  else
    {| command := Some "bash";
       args := Some ["-c";
                     currentNpxPath +:+ " --registry=" +:+ npmMirrorRegistry
                       +:+ " " +:+ join " " args_];
       env := Some (<["NPM_CONFIG_REGISTRY" := npmMirrorRegistry]> env_);
       cwd := cwd_;
       sseUrl := None |}.

Definition generateUvxCommand (serverConfig : ServerConfig) : ServerConfig :=
  let currentUvxPath := "uvx" in
  let args_ := default [] (args serverConfig) in
  let env_ := default ∅ (env serverConfig) in
  let cwd_ := or_undefined (cwd serverConfig) in
  if String.eqb platform "win32" then
    {| command := Some "cmd";
       args := Some ("/c" :: currentUvxPath :: args_);
       env := Some (<["UV_DEFAULT_INDEX" := uvDefaultIndex]> env_);
       cwd := cwd_;
       sseUrl := None |}
  else
    {| command := Some "bash";
       args := Some ["-c"; currentUvxPath +:+ " " +:+ join " " args_];
       env := Some (<["UV_DEFAULT_INDEX" := uvDefaultIndex]> env_);
       cwd := cwd_;
       sseUrl := None |}.

Definition generateCallStdioServerCommand
    (sourceServerConfig : ServerConfig) : ServerConfig :=
  let command_ := or_empty (command sourceServerConfig) in
  if String.eqb command_ "npx" then generateNpxCommand sourceServerConfig
  else if String.eqb command_ "uvx" then generateUvxCommand sourceServerConfig
  else sourceServerConfig.

End Rewriter.

(** ** Transport selection *)

(** What the runtime's [URL] constructor yields; only its existence matters
    to client.ts, which hands the object to the SSE transport. *)
Record URL := {
  href : string;
  protocol : string;
}.

(** The argument object of [new StdioClientTransport(...)]. *)
Record StdioServerParameters := {
  sp_command : string;
  sp_args : list string;
  sp_env : option (gmap string string);
  sp_cwd : option string;
}.

Inductive Transport :=
  | StdioClientTransport (params : StdioServerParameters)
  | SSEClientTransport (url : URL).

(** How a call completes: with a value or with a thrown one. *)
Inductive completion (E A : Type) :=
  | Returned (a : A)
  | Thrown (e : E).
Arguments Returned {E A} a.
Arguments Thrown {E A} e.

(** Values thrown by client.ts and by the runtime on its behalf. *)
Inductive ClientError :=
  | JsError (message : string)        (* [new Error(message)] *)
  | URLTypeError (input : string).    (* [new URL(input)] rejecting its input *)

Definition missingCommandMsg : string :=
  "[MCP Client] Missing command for STDIO transport".
Definition invalidSseUrlMsg : string := "[MCP Client] invalid SSE URL".
Definition unsupportedTransportMsg (t : string) : string :=
  "[MCP Client] Unsupported transport type: " +:+ t.

Section TransportSelector.

(** [new URL(s)]: [None] when the constructor throws. *)
Variable URL_parse : string -> option URL.

Definition isSSEUrl (url : string) : bool :=
  match URL_parse url with
  | Some _ => startsWith url "http://" || startsWith url "https://"
  | None => false
  end.

Definition createTransport (clientConfig : MCPClientConfig)
    : completion ClientError Transport :=
  let sc := serverConfig clientConfig in
  if String.eqb (transportType clientConfig) "stdio" then
    if negb (truthy (command sc)) then Thrown (JsError missingCommandMsg)
    else
      Returned (StdioClientTransport
                  {| sp_command := default "" (command sc);
                     sp_args := default [] (args sc);
                     sp_env := env sc;
                     sp_cwd := or_undefined (cwd sc) |})
  else if String.eqb (transportType clientConfig) "sse" then
    if negb (truthy (sseUrl sc)) || negb (isSSEUrl (default "" (sseUrl sc)))
    then Thrown (JsError invalidSseUrlMsg)
    else
      match URL_parse (default "" (sseUrl sc)) with
      | Some u => Returned (SSEClientTransport u)
      | None => Thrown (URLTypeError (default "" (sseUrl sc)))
      end
  else Thrown (JsError (unsupportedTransportMsg (transportType clientConfig))).

End TransportSelector.

(** ** The protocol SDK *)

Record ListToolsResult (Tool : Type) := { tools : option (list Tool) }.
Arguments tools {Tool} _.

Record CallToolRequest (ToolArgs : Type) := {
  name : string;
  arguments : ToolArgs;
}.
Arguments name {ToolArgs} _.
Arguments arguments {ToolArgs} _.

Record RequestOptions := { timeout : Z }.

(** The [Client] object of the SDK, seen from client.ts: a state that each
    call may change, and calls that are fulfilled or rejected. *)
Record Sdk := {
  Session : Type;
  SdkError : Type;
  Tool : Type;
  ToolArgs : Type;
  ResultSchema : Type;
  CallToolResult : Type;
  sdk_connect : Transport -> Session -> completion SdkError unit * Session;
  sdk_listTools :
    Session -> completion SdkError (ListToolsResult Tool) * Session;
  sdk_callTool :
    CallToolRequest ToolArgs -> option ResultSchema -> RequestOptions ->
    Session -> completion SdkError CallToolResult * Session;
}.

(** ** The client object and its effects *)

Section Client.

Variable platform : string.
Variable URL_parse : string -> option URL.
Variable sdk : Sdk.

(** The steps of a run that the statements below speak of, in order. *)
Inductive Event :=
  | EvRewrite (input : ServerConfig)
      (* [generateCallStdioServerCommand(input)] is called *)
  | EvLogStdioConfig (output : ServerConfig)
      (* [console.log('[MCP Client] stdioServerConfig', ...)] *)
  | EvConnect (t : Transport)
      (* [mcpClient.connect(t)] *)
  | EvLogConnectFailed (remaining : Z)
      (* the log line with [maxRetries - retries] *)
  | EvSleep (ms : Z)
      (* [await new Promise((resolve) => setTimeout(resolve, ms))] *)
  | EvListTools
      (* [mcpClient.listTools()] *)
  | EvCallTool (request : CallToolRequest (ToolArgs sdk))
               (resultSchema : option (ResultSchema sdk))
               (options : RequestOptions).
      (* [mcpClient.callTool(request, resultSchema, options)] *)

(** The fields of [MCPClient], with the events so far. *)
Record MCPClient := {
  mcpClient : Session sdk;
  transport : option Transport;
  clientConfig : MCPClientConfig;
  trace : list Event;
}.

(** Anything a method of the class can throw. *)
Inductive Exn :=
  | Own (e : ClientError)
  | FromSdk (e : SdkError sdk).

(** A method body: [None] only when a loop ran out of fuel. *)
Definition M (A : Type) : Type :=
  MCPClient -> option (completion Exn A * MCPClient).

Definition ret {A} (a : A) : M A := fun this => Some (Returned a, this).

Definition throw {A} (e : Exn) : M A := fun this => Some (Thrown e, this).

Definition bind {A B} (m : M A) (k : A -> M B) : M B :=
  fun this =>
    match m this with
    | Some (Returned a, this') => k a this'
    | Some (Thrown e, this') => Some (Thrown e, this')
    | None => None
    end.

(** [try { body } catch (error) { handler(error) }] *)
Definition try_catch {A} (body : M A) (handler : Exn -> M A) : M A :=
  fun this =>
    match body this with
    | Some (Thrown e, this') => handler e this'
    | r => r
    end.

Definition out_of_fuel {A} : M A := fun _ => None.

Notation "x <- m ;; k" := (bind m (fun x => k))
  (at level 100, m at next level, right associativity).
Notation "m ;;; k" := (bind m (fun _ => k))
  (at level 100, right associativity).

Definition emit (e : Event) : M unit :=
  fun this =>
    Some (Returned tt,
          {| mcpClient := mcpClient this; transport := transport this;
             clientConfig := clientConfig this;
             trace := trace this ++ [e] |}).

Definition get_clientConfig : M MCPClientConfig :=
  fun this => Some (Returned (clientConfig this), this).

Definition set_clientConfig (c : MCPClientConfig) : M unit :=
  fun this =>
    Some (Returned tt,
          {| mcpClient := mcpClient this; transport := transport this;
             clientConfig := c; trace := trace this |}).

Definition set_transport (t : Transport) : M unit :=
  fun this =>
    Some (Returned tt,
          {| mcpClient := mcpClient this; transport := Some t;
             clientConfig := clientConfig this; trace := trace this |}).

(** A call into the SDK client: it moves the client's state and is
    fulfilled or rejected. *)
Definition call_sdk {A}
    (f : Session sdk -> completion (SdkError sdk) A * Session sdk) : M A :=
  fun this =>
    let '(r, s) := f (mcpClient this) in
    let this' := {| mcpClient := s; transport := transport this;
                    clientConfig := clientConfig this;
                    trace := trace this |} in
    match r with
    | Returned a => Some (Returned a, this')
    | Thrown e => Some (Thrown (FromSdk e), this')
    end.

(** A call of a method of client.ts that throws its own errors. *)
Definition lift_own {A} (r : completion ClientError A) : M A :=
  match r with
  | Returned a => ret a
  | Thrown e => throw (Own e)
  end.

Definition sleep (ms : Z) : M unit := emit (EvSleep ms).

(** *** connectToServer *)

Definition maxRetries : Z := 3.
Definition retryDelay : Z := 1000.

(** How one turn of a retry loop ends. *)
Inductive Turn (A : Type) :=
  | Leave (a : A)          (* [return] or [break] *)
  | Again (retries : Z).   (* fall through to the loop test *)
Arguments Leave {A} a.
Arguments Again {A} retries.

Definition connectAttempt (retries : Z) : M (Turn unit) :=
  try_catch
    (cfg <- get_clientConfig ;;
     (if String.eqb (transportType cfg) "stdio" then
        emit (EvRewrite (serverConfig cfg)) ;;;
        let stdioServerConfig :=
          generateCallStdioServerCommand platform (serverConfig cfg) in
        emit (EvLogStdioConfig stdioServerConfig) ;;;
        set_clientConfig {| transportType := "stdio";
                            serverConfig := stdioServerConfig |}
      else ret tt) ;;;
     cfg' <- get_clientConfig ;;
     t <- lift_own (createTransport URL_parse cfg') ;;
     set_transport t ;;;
     emit (EvConnect t) ;;;
     call_sdk (sdk_connect sdk t) ;;;
     ret (Leave tt))
    (fun error =>
       let retries := retries + 1 in
       emit (EvLogConnectFailed (maxRetries - retries)) ;;;
       if maxRetries <=? retries then throw error
       else
         sleep retryDelay ;;;
         ret (Again retries)).

Fixpoint connectLoop (fuel : nat) (retries : Z) : M unit :=
  match fuel with
  | O => out_of_fuel
  | S fuel' =>
      if retries <? maxRetries then
        turn <- connectAttempt retries ;;
        match turn with
        | Leave _ => ret tt
        | Again retries' => connectLoop fuel' retries'
        end
      else ret tt
  end.

Definition connectToServer : M unit := connectLoop 4 0.

(** *** listTools *)

Definition listToolsAttempt (retries : Z)
    : M (Turn (option (ListToolsResult (Tool sdk)))) :=
  try_catch
    (emit EvListTools ;;;
     toolsResult <- call_sdk (sdk_listTools sdk) ;;
     ret (Leave (Some toolsResult)))
    (fun error =>
       let retries := retries - 1 in
       if retries =? 0 then throw error
       else
         sleep 1000 ;;;
         ret (Again retries)).

Fixpoint listToolsLoop (fuel : nat) (retries : Z)
    : M (option (ListToolsResult (Tool sdk))) :=
  match fuel with
  | O => out_of_fuel
  | S fuel' =>
      if 0 <? retries then
        turn <- listToolsAttempt retries ;;
        match turn with
        | Leave toolsResult => ret toolsResult
        | Again retries' => listToolsLoop fuel' retries'
        end
      else ret None
  end.

Definition listTools : M (list (Tool sdk)) :=
  try_catch
    (toolsResult <- listToolsLoop 4 3 ;;
     ret (match toolsResult with
          | Some r => default [] (tools r)
          | None => []
          end))
    (fun error => throw error).

(** *** callTool *)

Definition callTool (toolName : string) (toolArgs : ToolArgs sdk)
    : M (CallToolResult sdk) :=
  try_catch
    (let request := {| name := toolName; arguments := toolArgs |} in
     let options := {| timeout := 5 * 60 * 1000 |} in
     emit (EvCallTool request None options) ;;;
     result <- call_sdk (sdk_callTool sdk request None options) ;;
     ret result)
    (fun error => throw error).

(** *** Reading a trace *)

Definition connects (tr : list Event) : list Transport :=
  omap (fun e => match e with EvConnect t => Some t | _ => None end) tr.

Definition sleeps (tr : list Event) : list Z :=
  omap (fun e => match e with EvSleep ms => Some ms | _ => None end) tr.

Definition rewrites (tr : list Event) : list ServerConfig :=
  omap (fun e => match e with EvRewrite c => Some c | _ => None end) tr.

Definition failures (tr : list Event) : list Z :=
  omap (fun e => match e with EvLogConnectFailed n => Some n | _ => None end)
       tr.

Definition listToolsCalls (tr : list Event) : nat :=
  length (omap (fun e => match e with EvListTools => Some tt | _ => None end)
               tr).

End Client.

Arguments EvRewrite {sdk} input.
Arguments EvLogStdioConfig {sdk} output.
Arguments EvConnect {sdk} t.
Arguments EvLogConnectFailed {sdk} remaining.
Arguments EvSleep {sdk} ms.
Arguments EvListTools {sdk}.
Arguments EvCallTool {sdk} request resultSchema options.
Arguments mcpClient {sdk} _.
Arguments transport {sdk} _.
Arguments clientConfig {sdk} _.
Arguments trace {sdk} _.
Arguments Own {sdk} e.
Arguments FromSdk {sdk} e.
Arguments Leave {A} a.
Arguments Again {A} retries.
Arguments connects {sdk} tr.
Arguments sleeps {sdk} tr.
Arguments rewrites {sdk} tr.
Arguments failures {sdk} tr.
Arguments listToolsCalls {sdk} tr.

(** ** Vocabulary of the statements *)

(** The configuration an attempt of [connectToServer] stores before it builds
    the transport: rewritten for "stdio", untouched otherwise. *)
Definition storedConfig (platform : string) (cfg : MCPClientConfig)
    : MCPClientConfig :=
  if String.eqb (transportType cfg) "stdio" then
    {| transportType := "stdio";
       serverConfig :=
         generateCallStdioServerCommand platform (serverConfig cfg) |}
  else cfg.

(** The events of that first part of an attempt. *)
Definition rewriteEvents (platform : string) {sdk : Sdk}
    (cfg : MCPClientConfig) : list (Event sdk) :=
  if String.eqb (transportType cfg) "stdio" then
    [EvRewrite (serverConfig cfg);
     EvLogStdioConfig
       (generateCallStdioServerCommand platform (serverConfig cfg))]
  else [].

(** What the [catch] block of [connectToServer] does when entered with the
    counter at [retries]. *)
Definition caught {sdk : Sdk} (retries : Z) (error : Exn sdk)
    (this : MCPClient sdk)
    : option (completion (Exn sdk) (Turn unit) * MCPClient sdk) :=
  if maxRetries <=? retries + 1 then
    Some (Thrown error,
          {| mcpClient := mcpClient this; transport := transport this;
             clientConfig := clientConfig this;
             trace := trace this
                        ++ [EvLogConnectFailed (maxRetries - (retries + 1))] |})
  else
    Some (Returned (Again (retries + 1)),
          {| mcpClient := mcpClient this; transport := transport this;
             clientConfig := clientConfig this;
             trace := (trace this
                        ++ [EvLogConnectFailed (maxRetries - (retries + 1))])
                        ++ [EvSleep retryDelay] |}).

(** ** Concrete collaborators for the examples *)

(** A scripted SDK client: its state lists the outcomes of the calls still to
    come, [Some m] for a call rejected with [m] and [None] for a fulfilled
    one; once the script is used up every call is fulfilled. *)
Definition scripted : Sdk := {|
  Session := list (option string);
  SdkError := string;
  Tool := string;
  ToolArgs := list (string * string);
  ResultSchema := unit;
  CallToolResult := string;
  sdk_connect := fun _ s =>
    match s with
    | Some m :: s' => (Thrown m, s')
    | _ => (Returned tt, tail s)
    end;
  sdk_listTools := fun s =>
    match s with
    | Some m :: s' => (Thrown m, s')
    | _ => (Returned {| tools := Some ["A"; "B"] |}, tail s)
    end;
  sdk_callTool := fun request _ _ s =>
    match s with
    | Some m :: s' => (Thrown m, s')
    | _ => (Returned (name request), tail s)
    end;
|}.

(** The runtime's [URL] constructor at the inputs of the examples.  The URL
    Standard lower-cases the scheme while parsing, so
    [new URL('HTTP://example.com')] succeeds with protocol ['http:'].  Inputs
    that no example uses are entered as rejected. *)
Definition URL_table (s : string) : option URL :=
  if String.eqb s "HTTP://example.com"
  then Some {| href := "http://example.com/"; protocol := "http:" |}
  else if String.eqb s "http://localhost:3000/sse"
  then Some {| href := "http://localhost:3000/sse"; protocol := "http:" |}
  else None.

(** A freshly constructed client: no transport yet, nothing has happened. *)
Definition new_MCPClient (sdk : Sdk) (config : MCPClientConfig)
    (s : Session sdk) : MCPClient sdk :=
  {| mcpClient := s; transport := None; clientConfig := config; trace := [] |}.


(** The state in which an attempt of [connectToServer] reaches
    [createTransport]. *)
Definition prepared (platform : string) {sdk : Sdk} (this : MCPClient sdk)
    : MCPClient sdk :=
  {| mcpClient := mcpClient this; transport := transport this;
     clientConfig := storedConfig platform (clientConfig this);
     trace := trace this ++ rewriteEvents platform (clientConfig this) |}.

(** The state in which an attempt hears back from [connect]. *)
Definition connected (platform : string) {sdk : Sdk} (this : MCPClient sdk)
    (t : Transport) (s : Session sdk) : MCPClient sdk :=
  {| mcpClient := s; transport := Some t;
     clientConfig := storedConfig platform (clientConfig this);
     trace := (trace this ++ rewriteEvents platform (clientConfig this))
                ++ [EvConnect t] |}.

(** The client after a method that moved the SDK client to [s] and added the
    events [evs]; no other field changed. *)
Definition after {sdk : Sdk} (this : MCPClient sdk) (s : Session sdk)
    (evs : list (Event sdk)) : MCPClient sdk :=
  {| mcpClient := s; transport := transport this;
     clientConfig := clientConfig this; trace := trace this ++ evs |}.

(** [toolsResult?.tools ?? []] on a fulfilled call. *)
Definition toolsOf {Tool : Type} (toolsResult : ListToolsResult Tool)
    : list Tool :=
  default [] (tools toolsResult).

(** ** Vocabulary of the further properties *)

(** [sc] with its argument list replaced. *)
Definition withArgs (sc : ServerConfig) (a : option (list string))
    : ServerConfig :=
  {| command := command sc; args := a; env := env sc; cwd := cwd sc;
     sseUrl := sseUrl sc |}.

(** The numbers shown by [n] consecutive failure log lines, the first one
    showing [from]. *)
Fixpoint countdown (from : Z) (n : nat) : list Z :=
  match n with
  | O => []
  | S n' => from :: countdown (from - 1) n'
  end.

(** The handles [n] attempts pass to [connect], given what
    [createTransport] yields on the stored configuration. *)
Definition handles (built : completion ClientError Transport) (n : nat)
    : list Transport :=
  match built with
  | Returned t => repeat t n
  | Thrown _ => []
  end.
(** * Properties *)

(** ** The command rewriter *)

Lemma eqb_ne (a b : string) : a ≠ b -> String.eqb a b = false.
Proof. intros H. by apply String.eqb_neq. Qed.

Lemma or_empty_Some_ne (c : option string) (r : string) :
  r ≠ "" -> c ≠ Some r -> or_empty c ≠ r.
Proof.
  intros Hr Hc. destruct c as [[|a s]|]; cbn; try congruence.
Qed.

Lemma rewrite_npx platform sc :
  command sc = Some "npx" ->
  generateCallStdioServerCommand platform sc = generateNpxCommand platform sc.
Proof. unfold generateCallStdioServerCommand. by intros ->. Qed.

Lemma rewrite_uvx platform sc :
  command sc = Some "uvx" ->
  generateCallStdioServerCommand platform sc = generateUvxCommand platform sc.
Proof. unfold generateCallStdioServerCommand. by intros ->. Qed.

Lemma rewrite_other platform sc :
  command sc ≠ Some "npx" -> command sc ≠ Some "uvx" ->
  generateCallStdioServerCommand platform sc = sc.
Proof.
  intros Hn Hu. unfold generateCallStdioServerCommand.
  rewrite !eqb_ne; [done | |]; by apply or_empty_Some_ne.
Qed.

(** Every result of the rewriter is the input itself or a shell command. *)
Lemma rewrite_result platform sc :
  generateCallStdioServerCommand platform sc = sc
  ∨ command (generateCallStdioServerCommand platform sc) = Some "cmd"
  ∨ command (generateCallStdioServerCommand platform sc) = Some "bash".
Proof.
  unfold generateCallStdioServerCommand, generateNpxCommand, generateUvxCommand.
  destruct (String.eqb (or_empty (command sc)) "npx");
    [| destruct (String.eqb (or_empty (command sc)) "uvx")];
    [destruct (String.eqb platform "win32") ..|]; cbn; auto.
Qed.

(** Rewriting a rewritten configuration changes nothing. *)
Lemma rewrite_idempotent platform sc :
  generateCallStdioServerCommand platform
    (generateCallStdioServerCommand platform sc)
  = generateCallStdioServerCommand platform sc.
Proof.
  destruct (rewrite_result platform sc) as [H | [H | H]].
  - by rewrite !H.
  - apply rewrite_other; rewrite H; congruence.
  - apply rewrite_other; rewrite H; congruence.
Qed.

(** C7. On a platform other than win32 the rewriter maps
    [{command: "npx", args: ["-y", "some-pkg"]}], with the environment absent
    or empty, to [bash -c "npx --registry=<mirror> -y some-pkg"] with the
    environment [{NPM_CONFIG_REGISTRY: <mirror>}]; and for every
    caller-supplied environment of an npx configuration the rewritten
    environment binds NPM_CONFIG_REGISTRY to the mirror and agrees with the
    caller's environment on every other key. *)
Theorem npx_rewrite_unix (platform : string) :
  platform ≠ "win32" ->
  (forall e, e = None ∨ e = Some ∅ ->
     generateCallStdioServerCommand platform
       {| command := Some "npx"; args := Some ["-y"; "some-pkg"];
          env := e; cwd := None; sseUrl := None |}
     = {| command := Some "bash";
          args := Some ["-c";
            "npx --registry=https://registry.npmmirror.com -y some-pkg"];
          env := Some {[ "NPM_CONFIG_REGISTRY" :=
                           "https://registry.npmmirror.com" ]};
          cwd := None; sseUrl := None |})
  ∧ (forall sc (callerEnv : gmap string string),
       command sc = Some "npx" -> env sc = Some callerEnv ->
       exists env' : gmap string string,
         env (generateCallStdioServerCommand platform sc) = Some env'
         ∧ env' !! "NPM_CONFIG_REGISTRY" = Some "https://registry.npmmirror.com"
         ∧ forall k, k ≠ "NPM_CONFIG_REGISTRY" -> env' !! k = callerEnv !! k).
Proof.
  intros Hunix. split.
  - intros e He. unfold generateCallStdioServerCommand, generateNpxCommand.
    cbn. rewrite (eqb_ne _ _ Hunix). by destruct He as [-> | ->].
  - intros sc callerEnv Hc He. rewrite (rewrite_npx _ _ Hc).
    unfold generateNpxCommand. rewrite (eqb_ne _ _ Hunix), He. cbn.
    eexists. split; [reflexivity |]. split.
    + apply lookup_insert_eq.
    + intros k Hk. by apply lookup_insert_ne.
Qed.

Lemma npx_rewrite_unix_witness :
  "linux" ≠ "win32"
  ∧ generateCallStdioServerCommand "linux"
      {| command := Some "npx"; args := Some ["-y"; "some-pkg"];
         env := None; cwd := None; sseUrl := None |}
    = {| command := Some "bash";
         args := Some ["-c";
           "npx --registry=https://registry.npmmirror.com -y some-pkg"];
         env := Some {[ "NPM_CONFIG_REGISTRY" :=
                          "https://registry.npmmirror.com" ]};
         cwd := None; sseUrl := None |}.
Proof.
  assert (H : "linux" ≠ "win32") by discriminate.
  split; [exact H |].
  apply (proj1 (npx_rewrite_unix "linux" H) None). by left.
Defined.

(** C8. When the launch command is neither "npx" nor "uvx" (an absent command
    included) the rewriter returns its input unchanged.  The rewriter is a
    total function with no throwing path: on every input it yields either the
    input itself or a shell command. *)
Theorem rewriter_identity (platform : string) (sc : ServerConfig) :
  command sc ≠ Some "npx" -> command sc ≠ Some "uvx" ->
  generateCallStdioServerCommand platform sc = sc
  ∧ forall sc', exists out,
      generateCallStdioServerCommand platform sc' = out
      ∧ (out = sc' ∨ command out = Some "cmd" ∨ command out = Some "bash").
Proof.
  intros Hn Hu. split; [by apply rewrite_other |].
  intros sc'. eexists. split; [reflexivity | apply rewrite_result].
Qed.

Lemma rewriter_identity_witness :
  generateCallStdioServerCommand "linux"
    {| command := Some "node"; args := Some ["server.js"];
       env := None; cwd := Some "/srv"; sseUrl := None |}
  = {| command := Some "node"; args := Some ["server.js"];
       env := None; cwd := Some "/srv"; sseUrl := None |}
  ∧ generateCallStdioServerCommand "win32"
      {| command := None; args := None; env := None; cwd := None;
         sseUrl := Some "http://localhost:3000/sse" |}
    = {| command := None; args := None; env := None; cwd := None;
         sseUrl := Some "http://localhost:3000/sse" |}.
Proof.
  split.
  - apply (rewriter_identity "linux"); cbn; discriminate.
  - apply (rewriter_identity "win32"); cbn; discriminate.
Defined.

(** C9. On a platform other than win32 the rewriter puts the caller's
    arguments into one shell string, joined by single spaces and otherwise
    untouched, for "npx" and for "uvx"; hence it is not injective: the
    distinct argument lists ["a b"] and ["a", "b"] with command "npx" rewrite
    to the same configuration. *)
Theorem rewriter_joins_args (platform : string) :
  platform ≠ "win32" ->
  (forall sc, command sc = Some "npx" ->
     args (generateCallStdioServerCommand platform sc)
     = Some ["-c"; "npx --registry=https://registry.npmmirror.com "
                     +:+ join " " (default [] (args sc))])
  ∧ (forall sc, command sc = Some "uvx" ->
       args (generateCallStdioServerCommand platform sc)
       = Some ["-c"; "uvx " +:+ join " " (default [] (args sc))])
  ∧ (forall x y rest, join " " (x :: y :: rest) = x +:+ " " +:+ join " " (y :: rest))
  ∧ {| command := Some "npx"; args := Some ["a b"];
       env := None; cwd := None; sseUrl := None |}
    ≠ {| command := Some "npx"; args := Some ["a"; "b"];
         env := None; cwd := None; sseUrl := None |}
  ∧ generateCallStdioServerCommand platform
      {| command := Some "npx"; args := Some ["a b"];
         env := None; cwd := None; sseUrl := None |}
    = generateCallStdioServerCommand platform
        {| command := Some "npx"; args := Some ["a"; "b"];
           env := None; cwd := None; sseUrl := None |}.
Proof.
  intros Hunix. repeat split.
  - intros sc Hc. rewrite (rewrite_npx _ _ Hc). unfold generateNpxCommand.
    by rewrite (eqb_ne _ _ Hunix).
  - intros sc Hc. rewrite (rewrite_uvx _ _ Hc). unfold generateUvxCommand.
    by rewrite (eqb_ne _ _ Hunix).
  - discriminate.
  - unfold generateCallStdioServerCommand, generateNpxCommand. cbn.
    by rewrite (eqb_ne _ _ Hunix).
Qed.

Lemma rewriter_joins_args_witness :
  "darwin" ≠ "win32"
  ∧ args (generateCallStdioServerCommand "darwin"
            {| command := Some "uvx"; args := Some ["mcp-server-git"; "--repository"; "my repo"];
               env := None; cwd := None; sseUrl := None |})
    = Some ["-c"; "uvx mcp-server-git --repository my repo"].
Proof.
  assert (H : "darwin" ≠ "win32") by discriminate.
  split; [exact H |].
  exact (proj1 (proj2 (rewriter_joins_args "darwin" H))
           {| command := Some "uvx";
              args := Some ["mcp-server-git"; "--repository"; "my repo"];
              env := None; cwd := None; sseUrl := None |} eq_refl).
Defined.

(** An empty-string working directory does not survive the rewrite: C10 as
    stated fails at [cwd = ""], which [cwd || undefined] turns into
    [undefined]. *)
Lemma rewriter_drops_empty_cwd :
  env {| command := Some "npx"; args := None;
         env := Some {[ "NPM_CONFIG_REGISTRY" := "https://registry.example.org" ]};
         cwd := Some ""; sseUrl := None |}
    = Some {[ "NPM_CONFIG_REGISTRY" := "https://registry.example.org" ]}
  ∧ cwd (generateCallStdioServerCommand "linux"
           {| command := Some "npx"; args := None;
              env := Some {[ "NPM_CONFIG_REGISTRY" := "https://registry.example.org" ]};
              cwd := Some ""; sseUrl := None |})
    = None
  ∧ cwd (generateCallStdioServerCommand "linux"
           {| command := Some "npx"; args := None;
              env := Some {[ "NPM_CONFIG_REGISTRY" := "https://registry.example.org" ]};
              cwd := Some ""; sseUrl := None |})
    ≠ cwd {| command := Some "npx"; args := None;
             env := Some {[ "NPM_CONFIG_REGISTRY" := "https://registry.example.org" ]};
             cwd := Some ""; sseUrl := None |}.
Proof. repeat split. discriminate. Qed.

(** C10 (amended). If the caller's environment already binds the injected
    key (NPM_CONFIG_REGISTRY for "npx", UV_DEFAULT_INDEX for "uvx"), the
    rewritten environment binds that key to the hard-coded mirror URL
    whatever the caller's value was, and agrees with the caller's environment
    on every other key; a non-empty working directory is preserved unchanged,
    and an empty-string or absent one comes out unset. *)
Theorem rewriter_env_override (platform : string) (sc : ServerConfig)
    (callerEnv : gmap string string) (v : string) :
  env sc = Some callerEnv ->
  (command sc = Some "npx" ∧ callerEnv !! "NPM_CONFIG_REGISTRY" = Some v
   ∨ command sc = Some "uvx" ∧ callerEnv !! "UV_DEFAULT_INDEX" = Some v) ->
  exists (key mirror : string) (env' : gmap string string),
    (command sc = Some "npx" ∧ key = "NPM_CONFIG_REGISTRY"
       ∧ mirror = "https://registry.npmmirror.com"
     ∨ command sc = Some "uvx" ∧ key = "UV_DEFAULT_INDEX"
       ∧ mirror = "https://pypi.tuna.tsinghua.edu.cn/simple")
    ∧ env (generateCallStdioServerCommand platform sc) = Some env'
    ∧ env' !! key = Some mirror
    ∧ (forall k, k ≠ key -> env' !! k = callerEnv !! k)
    ∧ (forall d, d ≠ "" -> cwd sc = Some d ->
         cwd (generateCallStdioServerCommand platform sc) = Some d)
    ∧ (cwd sc = Some "" ∨ cwd sc = None ->
         cwd (generateCallStdioServerCommand platform sc) = None).
Proof.
  intros He [[Hc Hv] | [Hc Hv]].
  - exists "NPM_CONFIG_REGISTRY", "https://registry.npmmirror.com",
      (<["NPM_CONFIG_REGISTRY" := npmMirrorRegistry]> callerEnv).
    rewrite (rewrite_npx _ _ Hc). unfold generateNpxCommand. rewrite He.
    destruct (String.eqb platform "win32"); cbn;
      (split; [by left |]); (split; [done |]);
      (split; [apply lookup_insert_eq |]);
      (split; [by intros k Hk; apply lookup_insert_ne |]);
      (split; [intros [|a d] Hd ->; [done | reflexivity]
              | by intros [-> | ->]]).
  - exists "UV_DEFAULT_INDEX", "https://pypi.tuna.tsinghua.edu.cn/simple",
      (<["UV_DEFAULT_INDEX" := uvDefaultIndex]> callerEnv).
    rewrite (rewrite_uvx _ _ Hc). unfold generateUvxCommand. rewrite He.
    destruct (String.eqb platform "win32"); cbn;
      (split; [by right |]); (split; [done |]);
      (split; [apply lookup_insert_eq |]);
      (split; [by intros k Hk; apply lookup_insert_ne |]);
      (split; [intros [|a d] Hd ->; [done | reflexivity]
              | by intros [-> | ->]]).
Qed.

Lemma rewriter_env_override_witness :
  exists (key mirror : string) (env' : gmap string string),
    (Some "uvx" = Some "npx" ∧ key = "NPM_CONFIG_REGISTRY"
       ∧ mirror = "https://registry.npmmirror.com"
     ∨ Some "uvx" = Some "uvx" ∧ key = "UV_DEFAULT_INDEX"
       ∧ mirror = "https://pypi.tuna.tsinghua.edu.cn/simple")
    ∧ env (generateCallStdioServerCommand "win32"
             {| command := Some "uvx"; args := Some ["mcp-server-fetch"];
                env := Some {[ "UV_DEFAULT_INDEX" := "https://pypi.org/simple";
                               "HOME" := "/home/u" ]};
                cwd := Some "/work"; sseUrl := None |}) = Some env'
    ∧ env' !! key = Some mirror
    ∧ (forall k, k ≠ key ->
         env' !! k
         = ({[ "UV_DEFAULT_INDEX" := "https://pypi.org/simple";
               "HOME" := "/home/u" ]} : gmap string string) !! k)
    ∧ (forall d, d ≠ "" -> Some "/work" = Some d ->
         cwd (generateCallStdioServerCommand "win32"
                {| command := Some "uvx"; args := Some ["mcp-server-fetch"];
                   env := Some {[ "UV_DEFAULT_INDEX" := "https://pypi.org/simple";
                                  "HOME" := "/home/u" ]};
                   cwd := Some "/work"; sseUrl := None |}) = Some d)
    ∧ (Some "/work" = Some "" ∨ Some "/work" = None ->
         cwd (generateCallStdioServerCommand "win32"
                {| command := Some "uvx"; args := Some ["mcp-server-fetch"];
                   env := Some {[ "UV_DEFAULT_INDEX" := "https://pypi.org/simple";
                                  "HOME" := "/home/u" ]};
                   cwd := Some "/work"; sseUrl := None |}) = None).
Proof.
  apply (rewriter_env_override "win32"
           {| command := Some "uvx"; args := Some ["mcp-server-fetch"];
              env := Some {[ "UV_DEFAULT_INDEX" := "https://pypi.org/simple";
                             "HOME" := "/home/u" ]};
              cwd := Some "/work"; sseUrl := None |}
           {[ "UV_DEFAULT_INDEX" := "https://pypi.org/simple";
              "HOME" := "/home/u" ]}
           "https://pypi.org/simple").
  - reflexivity.
  - right. split; [reflexivity | vm_compute; reflexivity].
Defined.

(** ** The transport selector *)

Lemma truthy_false (s : option string) :
  truthy s = false <-> s = None ∨ s = Some "".
Proof.
  destruct s as [[|a s]|]; cbn; split; intros H; auto; try done.
  destruct H; done.
Qed.

Lemma truthy_true (s : option string) :
  truthy s = true <-> exists c, c ≠ "" ∧ s = Some c.
Proof.
  destruct s as [[|a s]|]; cbn; split; intros H; try done.
  - by destruct H as (c & Hc & [= <-]).
  - by exists (String a s).
  - by destruct H as (c & Hc & ?).
Qed.

(** [new URL('HTTP://example.com')] succeeds with scheme http, the URL is
    present, and [createTransport] still throws the invalid-URL error: C4 as
    stated fails for the stream transport. *)
Lemma createTransport_rejects_uppercase_scheme :
  URL_table "HTTP://example.com"
  = Some {| href := "http://example.com/"; protocol := "http:" |}
  ∧ createTransport URL_table
      {| transportType := "sse";
         serverConfig := {| command := None; args := None; env := None;
                            cwd := None;
                            sseUrl := Some "HTTP://example.com" |} |}
    = Thrown (JsError "[MCP Client] invalid SSE URL").
Proof. split; reflexivity. Qed.

(** C4 (amended). [createTransport] fails exactly on an invalid
    configuration, with the matching error.  For "stdio" it throws the
    missing-command error exactly when the command is absent or empty, and
    otherwise returns a stdio handle built from the configuration.  For "sse"
    it throws the invalid-URL error exactly when [sseUrl] is absent, or the
    URL constructor rejects it, or the string begins with neither the literal
    "http://" nor the literal "https://" (an empty string is such a string);
    otherwise it returns an SSE handle on the parsed URL.  For any other
    transport type it throws the unsupported-transport error naming the
    type. *)
Theorem createTransport_spec (URL_parse : string -> option URL)
    (cfg : MCPClientConfig) :
  (transportType cfg = "stdio" ->
     (createTransport URL_parse cfg
      = Thrown (JsError "[MCP Client] Missing command for STDIO transport")
      <-> command (serverConfig cfg) = None
          ∨ command (serverConfig cfg) = Some "")
     ∧ (forall c, c ≠ "" -> command (serverConfig cfg) = Some c ->
          createTransport URL_parse cfg
          = Returned (StdioClientTransport
                        {| sp_command := c;
                           sp_args := default [] (args (serverConfig cfg));
                           sp_env := env (serverConfig cfg);
                           sp_cwd := or_undefined (cwd (serverConfig cfg)) |})))
  ∧ (transportType cfg = "sse" ->
       (createTransport URL_parse cfg
        = Thrown (JsError "[MCP Client] invalid SSE URL")
        <-> sseUrl (serverConfig cfg) = None
            ∨ exists u, sseUrl (serverConfig cfg) = Some u
                ∧ (URL_parse u = None
                   ∨ startsWith u "http://" = false
                     ∧ startsWith u "https://" = false))
       ∧ (forall u parsed,
            sseUrl (serverConfig cfg) = Some u -> URL_parse u = Some parsed ->
            startsWith u "http://" = true ∨ startsWith u "https://" = true ->
            createTransport URL_parse cfg
            = Returned (SSEClientTransport parsed)))
  ∧ (transportType cfg ≠ "stdio" -> transportType cfg ≠ "sse" ->
       createTransport URL_parse cfg
       = Thrown (JsError ("[MCP Client] Unsupported transport type: "
                            +:+ transportType cfg))).
Proof.
  destruct cfg as [tt sc]. cbn [transportType serverConfig].
  unfold createTransport. cbn [transportType serverConfig].
  split; [| split].
  - intros ->. cbn. split.
    + rewrite <- truthy_false. destruct (truthy (command sc)); cbn; split; done.
    + intros c Hc Hsc. rewrite Hsc. destruct c; [done | reflexivity].
  - intros ->. cbn. split.
    + destruct (sseUrl sc) as [u|] eqn:Hu; cbn; [| split; auto].
      assert (Hempty : startsWith "" "http://" = false
                       ∧ startsWith "" "https://" = false) by done.
      unfold isSSEUrl.
      destruct u as [|a u]; cbn [truthy negb orb].
      { split; [| done]. intros _. right. exists "". auto. }
      destruct (URL_parse (String a u)) as [parsed|] eqn:Hp; cbn [negb].
      * destruct (startsWith (String a u) "http://") eqn:H1;
          destruct (startsWith (String a u) "https://") eqn:H2; cbn.
        all: (split;
          [ first [ done
                  | intros _; right; exists (String a u);
                    split; [done |]; right; done ]
          | intros [? | (u' & [= <-] & [? | [? ?]])];
            first [reflexivity | congruence] ]).
      * split; [| done]. intros _. right. exists (String a u). auto.
    + intros u parsed -> Hp Hpre. cbn. unfold isSSEUrl. rewrite Hp.
      destruct u as [|a u]; [by destruct Hpre |].
      cbn [truthy negb orb].
      destruct Hpre as [-> | ->]; cbn; rewrite ?orb_true_r; done.
  - intros H1 H2. by rewrite !eqb_ne.
Qed.

(** ** Reading traces *)

Section TraceFacts.

Context {sdk : Sdk}.
Implicit Types tr : list (Event sdk).

Lemma connects_app tr1 tr2 :
  connects (tr1 ++ tr2) = connects tr1 ++ connects tr2.
Proof. apply omap_app. Qed.

Lemma sleeps_app tr1 tr2 : sleeps (tr1 ++ tr2) = sleeps tr1 ++ sleeps tr2.
Proof. apply omap_app. Qed.

Lemma rewrites_app tr1 tr2 :
  rewrites (tr1 ++ tr2) = rewrites tr1 ++ rewrites tr2.
Proof. apply omap_app. Qed.

Lemma failures_app tr1 tr2 :
  failures (tr1 ++ tr2) = failures tr1 ++ failures tr2.
Proof. apply omap_app. Qed.

Lemma listToolsCalls_app tr1 tr2 :
  listToolsCalls (tr1 ++ tr2) = (listToolsCalls tr1 + listToolsCalls tr2)%nat.
Proof. unfold listToolsCalls. by rewrite omap_app, length_app. Qed.

Lemma rewriteEvents_connects platform cfg :
  connects (rewriteEvents (sdk:=sdk) platform cfg) = [].
Proof. unfold rewriteEvents. by case_match. Qed.

Lemma rewriteEvents_sleeps platform cfg :
  sleeps (rewriteEvents (sdk:=sdk) platform cfg) = [].
Proof. unfold rewriteEvents. by case_match. Qed.

Lemma rewriteEvents_failures platform cfg :
  failures (rewriteEvents (sdk:=sdk) platform cfg) = [].
Proof. unfold rewriteEvents. by case_match. Qed.

Lemma rewriteEvents_rewrites platform cfg :
  transportType cfg = "stdio" ->
  rewrites (rewriteEvents (sdk:=sdk) platform cfg) = [serverConfig cfg].
Proof. unfold rewriteEvents. by intros ->. Qed.

End TraceFacts.

Create Rewrite HintDb trace.
#[export] Hint Rewrite @connects_app @sleeps_app @rewrites_app @failures_app
  @rewriteEvents_connects @rewriteEvents_sleeps @rewriteEvents_failures
  @app_nil_r : trace.

(** ** Stored configurations *)

Lemma storedConfig_transportType platform cfg :
  transportType (storedConfig platform cfg) = transportType cfg.
Proof.
  unfold storedConfig.
  destruct (String.eqb_spec (transportType cfg) "stdio") as [-> | ?]; done.
Qed.

Lemma storedConfig_idempotent platform cfg :
  storedConfig platform (storedConfig platform cfg) = storedConfig platform cfg.
Proof.
  unfold storedConfig at 1. rewrite storedConfig_transportType.
  unfold storedConfig.
  destruct (String.eqb (transportType cfg) "stdio"); [| done].
  cbn. by rewrite rewrite_idempotent.
Qed.

Lemma storedConfig_stdio platform cfg :
  transportType cfg = "stdio" ->
  storedConfig platform cfg
  = {| transportType := "stdio";
       serverConfig :=
         generateCallStdioServerCommand platform (serverConfig cfg) |}.
Proof. unfold storedConfig. by intros ->. Qed.

(** A configuration the selector rejects is stored as it is: for "stdio" the
    command is then absent or empty, which the rewriter leaves alone. *)
Lemma storedConfig_rejected platform URL_parse cfg e :
  createTransport URL_parse cfg = Thrown e ->
  storedConfig platform cfg = cfg.
Proof.
  destruct cfg as [tt sc]. unfold createTransport, storedConfig. cbn.
  destruct (String.eqb_spec tt "stdio") as [-> | ?]; [| done].
  destruct (truthy (command sc)) eqn:Ht; [done |]. intros _.
  apply truthy_false in Ht. f_equal.
  apply rewrite_other; destruct Ht as [-> | ->]; done.
Qed.

(** A configuration the selector accepts is still accepted once rewritten. *)
Lemma storedConfig_accepted platform URL_parse cfg t0 :
  createTransport URL_parse cfg = Returned t0 ->
  exists t, createTransport URL_parse (storedConfig platform cfg) = Returned t.
Proof.
  intros H. unfold storedConfig.
  destruct (String.eqb_spec (transportType cfg) "stdio") as [Hs | ?];
    [| by exists t0].
  revert H. unfold createTransport. rewrite Hs. cbn.
  destruct (truthy (command (serverConfig cfg))) eqn:Ht; [| done]. intros _.
  destruct (rewrite_result platform (serverConfig cfg)) as [-> | [-> | ->]];
    [rewrite Ht | ..]; cbn; eauto.
Qed.

(** ** One attempt of [connectToServer] *)

Section ConnectFacts.

Variable platform : string.
Variable URL_parse : string -> option URL.
Variable sdk : Sdk.

Local Abbreviation attempt := (connectAttempt platform URL_parse sdk).
Local Abbreviation loop := (connectLoop platform URL_parse sdk).
Local Abbreviation stored := (storedConfig platform).

Lemma connectAttempt_eq (retries : Z) (this : MCPClient sdk) :
  attempt retries this
  = match createTransport URL_parse (stored (clientConfig this)) with
    | Thrown e => caught retries (Own e) (prepared platform this)
    | Returned t =>
        match sdk_connect sdk t (mcpClient this) with
        | (Returned _, s) => Some (Returned (Leave tt), connected platform this t s)
        | (Thrown e, s) => caught retries (FromSdk e) (connected platform this t s)
        end
    end.
Proof.
  destruct this as [s0 t0 cfg tr].
  unfold connectAttempt, try_catch, bind, get_clientConfig, set_clientConfig,
    set_transport, sleep, emit, call_sdk, lift_own, ret, throw, prepared,
    connected, storedConfig, rewriteEvents, caught.
  cbn [clientConfig mcpClient transport trace].
  destruct (String.eqb (transportType cfg) "stdio");
    cbn -[createTransport generateCallStdioServerCommand];
    rewrite ?app_nil_r;
    (match goal with
     | |- context [createTransport ?p ?c] =>
         destruct (createTransport p c) as [t | e]
     end;
     cbn -[generateCallStdioServerCommand];
     [ destruct (sdk_connect sdk t s0) as [[[] | e] s1];
       cbn -[generateCallStdioServerCommand] | ]);
    unfold caught, sleep, emit, throw, ret;
    cbn -[generateCallStdioServerCommand];
    try (destruct (maxRetries <=? retries + 1);
         cbn -[generateCallStdioServerCommand]);
    rewrite <- ?app_assoc; reflexivity.
Qed.

Lemma caught_1 (error : Exn sdk) (this : MCPClient sdk) :
  caught 0 error this
  = Some (Returned (Again 1),
          {| mcpClient := mcpClient this; transport := transport this;
             clientConfig := clientConfig this;
             trace := (trace this ++ [EvLogConnectFailed 2])
                        ++ [EvSleep 1000] |}).
Proof. reflexivity. Qed.

Lemma caught_2 (error : Exn sdk) (this : MCPClient sdk) :
  caught 1 error this
  = Some (Returned (Again 2),
          {| mcpClient := mcpClient this; transport := transport this;
             clientConfig := clientConfig this;
             trace := (trace this ++ [EvLogConnectFailed 1])
                        ++ [EvSleep 1000] |}).
Proof. reflexivity. Qed.

Lemma caught_3 (error : Exn sdk) (this : MCPClient sdk) :
  caught 2 error this
  = Some (Thrown error,
          {| mcpClient := mcpClient this; transport := transport this;
             clientConfig := clientConfig this;
             trace := trace this ++ [EvLogConnectFailed 0] |}).
Proof. reflexivity. Qed.

Lemma connectLoop_step (fuel : nat) (retries : Z) (this : MCPClient sdk) :
  retries < maxRetries ->
  loop (S fuel) retries this
  = match attempt retries this with
    | Some (Returned (Leave _), this') => Some (Returned tt, this')
    | Some (Returned (Again retries'), this') => loop fuel retries' this'
    | Some (Thrown e, this') => Some (Thrown e, this')
    | None => None
    end.
Proof.
  intros H. cbn [connectLoop].
  destruct (Z.ltb_spec retries maxRetries); [| lia].
  unfold bind. destruct (attempt retries this) as [[[[] | ] ?] | ]; done.
Qed.

End ConnectFacts.

Ltac read_trace :=
  unfold connected, prepared, after;
  cbn [trace mcpClient transport clientConfig];
  autorewrite with trace; cbn; rewrite <- ?app_assoc, ?app_nil_r; cbn.

Lemma connectAttempt_rejected platform URL_parse sdk retries
    (this : MCPClient sdk) e :
  createTransport URL_parse (clientConfig this) = Thrown e ->
  connectAttempt platform URL_parse sdk retries this
  = caught retries (Own e)
      {| mcpClient := mcpClient this; transport := transport this;
         clientConfig := clientConfig this;
         trace := trace this ++ rewriteEvents platform (clientConfig this) |}.
Proof.
  intros H. rewrite connectAttempt_eq. unfold prepared.
  by rewrite (storedConfig_rejected platform _ _ _ H), H.
Qed.

(** On a stdio client whose command is missing, [createTransport] throws the
    missing-command error, and [connectToServer] still goes through its three
    attempts and two delays before throwing it: C1 as stated fails. *)
Lemma connectToServer_retries_missing_command :
  createTransport URL_table
    {| transportType := "stdio";
       serverConfig := {| command := None; args := None; env := None;
                          cwd := None; sseUrl := None |} |}
  = Thrown (JsError "[MCP Client] Missing command for STDIO transport")
  ∧ exists this',
      connectToServer "linux" URL_table scripted
        (new_MCPClient scripted
           {| transportType := "stdio";
              serverConfig := {| command := None; args := None; env := None;
                                 cwd := None; sseUrl := None |} |}
           [])
      = Some (Thrown (Own (JsError
                "[MCP Client] Missing command for STDIO transport")), this')
      ∧ sleeps (trace this') = [1000; 1000]
      ∧ failures (trace this') = [2; 1; 0]
      ∧ length (rewrites (trace this')) = 3%nat.
Proof.
  split; [reflexivity |]. vm_compute. eexists. split; [reflexivity |]. done.
Qed.

(** C1 (amended). If building the transport handle fails (missing command,
    invalid SSE URL, unsupported transport type), [connectToServer] handles
    the failure like any other: it makes three attempts, each one failing in
    [createTransport] before any call of [connect], waits 1000 ms after the
    first and after the second, and then throws the error of the third
    attempt, which is the same configuration error.  The SDK client, the
    stored transport and the stored configuration are left as they were. *)
Theorem connectToServer_config_error (platform : string)
    (URL_parse : string -> option URL) (sdk : Sdk) (this : MCPClient sdk)
    (e : ClientError) :
  createTransport URL_parse (clientConfig this) = Thrown e ->
  exists this',
    connectToServer platform URL_parse sdk this = Some (Thrown (Own e), this')
    ∧ connects (trace this') = connects (trace this)
    ∧ sleeps (trace this') = sleeps (trace this) ++ [1000; 1000]
    ∧ failures (trace this') = failures (trace this) ++ [2; 1; 0]
    ∧ mcpClient this' = mcpClient this
    ∧ transport this' = transport this
    ∧ clientConfig this' = clientConfig this.
Proof.
  intros H. unfold connectToServer.
  rewrite connectLoop_step by done.
  rewrite (connectAttempt_rejected _ _ _ _ _ e) by done. rewrite caught_1.
  rewrite connectLoop_step by done.
  rewrite (connectAttempt_rejected _ _ _ _ _ e) by done. rewrite caught_2.
  rewrite connectLoop_step by done.
  rewrite (connectAttempt_rejected _ _ _ _ _ e) by done. rewrite caught_3.
  eexists. split; [reflexivity |]. by read_trace.
Qed.

Lemma connectToServer_config_error_witness :
  exists this',
    connectToServer "win32" URL_table scripted
      (new_MCPClient scripted
         {| transportType := "sse";
            serverConfig := {| command := None; args := None; env := None;
                               cwd := None;
                               sseUrl := Some "ftp://example.com" |} |}
         [None])
    = Some (Thrown (Own (JsError "[MCP Client] invalid SSE URL")), this')
    ∧ connects (trace this') = []
    ∧ sleeps (trace this') = [1000; 1000]
    ∧ failures (trace this') = [2; 1; 0]
    ∧ mcpClient this' = [None]
    ∧ transport this' = None
    ∧ clientConfig this'
      = {| transportType := "sse";
           serverConfig := {| command := None; args := None; env := None;
                              cwd := None;
                              sseUrl := Some "ftp://example.com" |} |}.
Proof.
  apply (connectToServer_config_error "win32" URL_table scripted
           (new_MCPClient scripted
              {| transportType := "sse";
                 serverConfig := {| command := None; args := None;
                                    env := None; cwd := None;
                                    sseUrl := Some "ftp://example.com" |} |}
              [None])
           (JsError "[MCP Client] invalid SSE URL")).
  reflexivity.
Defined.

Lemma connectAttempt_accepted platform URL_parse sdk retries
    (this : MCPClient sdk) t :
  createTransport URL_parse (storedConfig platform (clientConfig this))
  = Returned t ->
  connectAttempt platform URL_parse sdk retries this
  = match sdk_connect sdk t (mcpClient this) with
    | (Returned _, s) =>
        Some (Returned (Leave tt), connected platform this t s)
    | (Thrown e, s) =>
        caught retries (FromSdk e) (connected platform this t s)
    end.
Proof. intros H. by rewrite connectAttempt_eq, H. Qed.

Ltac connect_turn t H :=
  rewrite connectLoop_step by done;
  rewrite (connectAttempt_accepted _ _ _ _ _ t)
    by (cbn [clientConfig connected]; rewrite ?storedConfig_idempotent; done);
  cbn [mcpClient connected]; rewrite H.

(** C3. For every configuration that [createTransport] accepts, every attempt
    builds the same handle [t] and: if [connect] is rejected twice and then
    fulfilled, [connectToServer] returns normally after exactly three calls
    of [connect] and exactly two delays of 1000 ms, with the handle stored;
    if [connect] is rejected three times, [connectToServer] makes exactly
    three calls of [connect], with two delays of 1000 ms, and throws the
    error of the third rejection. *)
Theorem connectToServer_retry (platform : string)
    (URL_parse : string -> option URL) (sdk : Sdk) (this : MCPClient sdk)
    (t0 : Transport) :
  createTransport URL_parse (clientConfig this) = Returned t0 ->
  exists t,
    createTransport URL_parse (storedConfig platform (clientConfig this))
    = Returned t
    ∧ (forall e1 e2 s1 s2 s3,
         sdk_connect sdk t (mcpClient this) = (Thrown e1, s1) ->
         sdk_connect sdk t s1 = (Thrown e2, s2) ->
         sdk_connect sdk t s2 = (Returned tt, s3) ->
         exists this',
           connectToServer platform URL_parse sdk this
           = Some (Returned tt, this')
           ∧ connects (trace this') = connects (trace this) ++ [t; t; t]
           ∧ sleeps (trace this') = sleeps (trace this) ++ [1000; 1000]
           ∧ failures (trace this') = failures (trace this) ++ [2; 1]
           ∧ mcpClient this' = s3
           ∧ transport this' = Some t)
    ∧ (forall e1 e2 e3 s1 s2 s3,
         sdk_connect sdk t (mcpClient this) = (Thrown e1, s1) ->
         sdk_connect sdk t s1 = (Thrown e2, s2) ->
         sdk_connect sdk t s2 = (Thrown e3, s3) ->
         exists this',
           connectToServer platform URL_parse sdk this
           = Some (Thrown (FromSdk e3), this')
           ∧ connects (trace this') = connects (trace this) ++ [t; t; t]
           ∧ sleeps (trace this') = sleeps (trace this) ++ [1000; 1000]
           ∧ failures (trace this') = failures (trace this) ++ [2; 1; 0]
           ∧ mcpClient this' = s3).
Proof.
  intros H0.
  destruct (storedConfig_accepted platform _ _ _ H0) as [t Ht].
  exists t. split; [exact Ht |]. split.
  - intros e1 e2 s1 s2 s3 H1 H2 H3. unfold connectToServer.
    connect_turn t H1. rewrite caught_1.
    connect_turn t H2. rewrite caught_2.
    connect_turn t H3.
    eexists. split; [reflexivity |]. by read_trace.
  - intros e1 e2 e3 s1 s2 s3 H1 H2 H3. unfold connectToServer.
    connect_turn t H1. rewrite caught_1.
    connect_turn t H2. rewrite caught_2.
    connect_turn t H3. rewrite caught_3.
    eexists. split; [reflexivity |]. by read_trace.
Qed.

Lemma connectToServer_retry_witness :
  createTransport URL_table
    {| transportType := "sse";
       serverConfig := {| command := None; args := None; env := None;
                          cwd := None;
                          sseUrl := Some "http://localhost:3000/sse" |} |}
  = Returned (SSEClientTransport
                {| href := "http://localhost:3000/sse"; protocol := "http:" |})
  ∧ (exists this',
       connectToServer "linux" URL_table scripted
         (new_MCPClient scripted
            {| transportType := "sse";
               serverConfig := {| command := None; args := None; env := None;
                                  cwd := None;
                                  sseUrl := Some "http://localhost:3000/sse" |} |}
            [Some "ECONNREFUSED"; Some "ECONNRESET"; None])
       = Some (Returned tt, this')
       ∧ length (connects (trace this')) = 3%nat
       ∧ sleeps (trace this') = [1000; 1000])
  ∧ (exists this',
       connectToServer "linux" URL_table scripted
         (new_MCPClient scripted
            {| transportType := "sse";
               serverConfig := {| command := None; args := None; env := None;
                                  cwd := None;
                                  sseUrl := Some "http://localhost:3000/sse" |} |}
            [Some "first"; Some "second"; Some "third"; Some "fourth"])
       = Some (Thrown (FromSdk ("third" : SdkError scripted)), this')
       ∧ length (connects (trace this')) = 3%nat
       ∧ sleeps (trace this') = [1000; 1000]).
Proof.
  pose (cfg := {| transportType := "sse";
                  serverConfig := {| command := None; args := None;
                                     env := None; cwd := None;
                                     sseUrl := Some "http://localhost:3000/sse" |} |}).
  assert (H0 : createTransport URL_table cfg
               = Returned (SSEClientTransport
                    {| href := "http://localhost:3000/sse";
                       protocol := "http:" |})) by reflexivity.
  split; [exact H0 |]. split.
  - destruct (connectToServer_retry "linux" URL_table scripted
                (new_MCPClient scripted cfg
                   [Some "ECONNREFUSED"; Some "ECONNRESET"; None]) _ H0)
      as (t & Ht & Hok & _).
    vm_compute in Ht. injection Ht as <-.
    destruct (Hok "ECONNREFUSED" "ECONNRESET"
                [Some "ECONNRESET"; None] [None] []
                eq_refl eq_refl eq_refl)
      as (this' & Hrun & Hc & Hs & _).
    exists this'. split; [exact Hrun |]. split; [by rewrite Hc | exact Hs].
  - destruct (connectToServer_retry "linux" URL_table scripted
                (new_MCPClient scripted cfg
                   [Some "first"; Some "second"; Some "third"; Some "fourth"])
                _ H0)
      as (t & Ht & _ & Hfail).
    vm_compute in Ht. injection Ht as <-.
    destruct (Hfail "first" "second" "third"
                [Some "second"; Some "third"; Some "fourth"]
                [Some "third"; Some "fourth"] [Some "fourth"]
                eq_refl eq_refl eq_refl)
      as (this' & Hrun & Hc & Hs & _).
    exists this'. split; [exact Hrun |]. split; [by rewrite Hc | exact Hs].
Defined.

(** ** How often the rewriter runs *)

Lemma caught_cases {sdk : Sdk} (retries : Z) (error : Exn sdk)
    (this : MCPClient sdk) :
  (maxRetries <= retries + 1
   ∧ caught retries error this
     = Some (Thrown error,
             {| mcpClient := mcpClient this; transport := transport this;
                clientConfig := clientConfig this;
                trace := trace this
                  ++ [EvLogConnectFailed (maxRetries - (retries + 1))] |}))
  ∨ (retries + 1 < maxRetries
     ∧ caught retries error this
       = Some (Returned (Again (retries + 1)),
               {| mcpClient := mcpClient this; transport := transport this;
                  clientConfig := clientConfig this;
                  trace := (trace this
                    ++ [EvLogConnectFailed (maxRetries - (retries + 1))])
                    ++ [EvSleep retryDelay] |})).
Proof.
  unfold caught. destruct (Z.leb_spec maxRetries (retries + 1)); auto.
Qed.

(** The result of one attempt on a stdio client: it ends the invocation with
    no delay, or it asks for another turn after one delay; either way the
    rewriter ran once, on the configuration stored before. *)
Lemma connectAttempt_stdio platform URL_parse sdk retries
    (this : MCPClient sdk) :
  transportType (clientConfig this) = "stdio" ->
  exists r this',
    connectAttempt platform URL_parse sdk retries this = Some (r, this')
    ∧ clientConfig this' = storedConfig platform (clientConfig this)
    ∧ rewrites (trace this')
      = rewrites (trace this) ++ [serverConfig (clientConfig this)]
    ∧ (((forall n, r ≠ Returned (Again n))
        ∧ sleeps (trace this') = sleeps (trace this))
       ∨ (r = Returned (Again (retries + 1)) ∧ retries + 1 < maxRetries
          ∧ sleeps (trace this') = sleeps (trace this) ++ [1000])).
Proof.
  intros Hs. rewrite connectAttempt_eq.
  pose proof (rewriteEvents_rewrites (sdk:=sdk) platform _ Hs) as HR.
  destruct (createTransport URL_parse _) as [t | e].
  - destruct (sdk_connect sdk t (mcpClient this)) as [[[] | e] s].
    + eexists _, _. split; [reflexivity |]. split; [done |].
      split; [read_trace; by rewrite HR |].
      left. split; [done | by read_trace].
    + destruct (caught_cases retries (FromSdk e)
                  (connected platform this t s)) as [[? ->] | [? ->]];
        eexists _, _; (split; [reflexivity |]); (split; [done |]);
        (split; [read_trace; by rewrite HR |]).
      * left. split; [done | by read_trace].
      * right. repeat split; try done. by read_trace.
  - destruct (caught_cases retries (Own e) (prepared platform this))
      as [[? ->] | [? ->]];
      eexists _, _; (split; [reflexivity |]); (split; [done |]);
      (split; [read_trace; by rewrite HR |]).
    + left. split; [done | by read_trace].
    + right. repeat split; try done. by read_trace.
Qed.

Lemma connectLoop_stdio platform URL_parse sdk (fuel : nat) :
  forall (retries : Z) (this : MCPClient sdk),
    transportType (clientConfig this) = "stdio" ->
    0 <= retries < maxRetries ->
    (Z.to_nat (maxRetries - retries) <= fuel)%nat ->
    exists r this' (k : nat),
      connectLoop platform URL_parse sdk fuel retries this = Some (r, this')
      ∧ (k <= Z.to_nat (maxRetries - 1 - retries))%nat
      ∧ clientConfig this' = storedConfig platform (clientConfig this)
      ∧ sleeps (trace this') = sleeps (trace this) ++ repeat 1000 k
      ∧ rewrites (trace this')
        = rewrites (trace this)
            ++ serverConfig (clientConfig this)
            :: repeat (serverConfig
                         (storedConfig platform (clientConfig this))) k.
Proof.
  induction fuel as [| fuel IH]; intros retries this Hs Hr Hfuel;
    [unfold maxRetries in *; lia |].
  rewrite connectLoop_step by lia.
  destruct (connectAttempt_stdio platform URL_parse sdk retries this Hs)
    as (r & this1 & -> & Hcfg & Hrw & [[Hleave Hsl] | (-> & Hlt & Hsl)]).
  - exists (match r with
            | Returned (Leave _) => Returned tt
            | Returned (Again _) => Returned tt
            | Thrown e => Thrown e
            end), this1, 0%nat.
    split; [| split; [lia |]; split; [done |]; cbn; by rewrite app_nil_r].
    destruct r as [[[] | n] | e]; [done | by destruct (Hleave n) | done].
  - assert (Hs1 : transportType (clientConfig this1) = "stdio")
      by (by rewrite Hcfg, storedConfig_transportType).
    destruct (IH (retries + 1) this1 Hs1) as (r & this' & k & -> & Hk & Hc & Hsl' & Hrw');
      [lia | unfold maxRetries in *; lia |].
    exists r, this', (S k). split; [done |].
    split; [unfold maxRetries in *; lia |].
    rewrite Hc, Hsl', Hrw', Hsl, Hrw, Hcfg, storedConfig_idempotent.
    split; [done |]. cbn. by rewrite <- !app_assoc.
Qed.

(** In one invocation on a stdio client with a failing session the rewriter
    runs three times, the second and third time on the configuration it has
    itself produced: C2 as stated fails. *)
Lemma connectToServer_rewrites_each_attempt :
  exists this',
    connectToServer "linux" URL_table scripted
      (new_MCPClient scripted
         {| transportType := "stdio";
            serverConfig := {| command := Some "npx"; args := Some ["-y"; "some-pkg"];
                               env := None; cwd := None; sseUrl := None |} |}
         [Some "ECONNREFUSED"; Some "ECONNREFUSED"; None])
    = Some (Returned tt, this')
    ∧ rewrites (trace this')
      = [ {| command := Some "npx"; args := Some ["-y"; "some-pkg"];
             env := None; cwd := None; sseUrl := None |};
          generateCallStdioServerCommand "linux"
            {| command := Some "npx"; args := Some ["-y"; "some-pkg"];
               env := None; cwd := None; sseUrl := None |};
          generateCallStdioServerCommand "linux"
            {| command := Some "npx"; args := Some ["-y"; "some-pkg"];
               env := None; cwd := None; sseUrl := None |} ]
    ∧ generateCallStdioServerCommand "linux"
        {| command := Some "npx"; args := Some ["-y"; "some-pkg"];
           env := None; cwd := None; sseUrl := None |}
      ≠ {| command := Some "npx"; args := Some ["-y"; "some-pkg"];
           env := None; cwd := None; sseUrl := None |}.
Proof.
  vm_compute. eexists. split; [reflexivity |]. split; [reflexivity |].
  discriminate.
Qed.

(** C2 (amended). For every stdio configuration, one invocation of
    [connectToServer] ends, and it applies the rewriter once per attempt:
    once to the original parameters and once more after each backoff delay
    (at most two), then to the stored, already rewritten parameters.  As
    rewriting is idempotent, the stored configuration after any number of
    retries equals the rewrite of the original one. *)
Theorem connectToServer_rewrites (platform : string)
    (URL_parse : string -> option URL) (sdk : Sdk) (this : MCPClient sdk) :
  transportType (clientConfig this) = "stdio" ->
  exists r this' (k : nat),
    connectToServer platform URL_parse sdk this = Some (r, this')
    ∧ (k <= 2)%nat
    ∧ sleeps (trace this') = sleeps (trace this) ++ repeat 1000 k
    ∧ rewrites (trace this')
      = rewrites (trace this)
          ++ serverConfig (clientConfig this)
          :: repeat (generateCallStdioServerCommand platform
                       (serverConfig (clientConfig this))) k
    ∧ clientConfig this'
      = {| transportType := "stdio";
           serverConfig := generateCallStdioServerCommand platform
                             (serverConfig (clientConfig this)) |}
    ∧ generateCallStdioServerCommand platform
        (generateCallStdioServerCommand platform
           (serverConfig (clientConfig this)))
      = generateCallStdioServerCommand platform
          (serverConfig (clientConfig this)).
Proof.
  intros Hs. unfold connectToServer.
  destruct (connectLoop_stdio platform URL_parse sdk 4 0 this Hs)
    as (r & this' & k & Hrun & Hk & Hc & Hsl & Hrw);
    [done | unfold maxRetries; lia |].
  exists r, this', k. split; [exact Hrun |].
  rewrite (storedConfig_stdio _ _ Hs) in Hc, Hrw.
  split; [exact Hk |]. split; [exact Hsl |]. split; [exact Hrw |].
  split; [exact Hc | apply rewrite_idempotent].
Qed.

Lemma connectToServer_rewrites_witness :
  exists r this' (k : nat),
    connectToServer "win32" URL_table scripted
      (new_MCPClient scripted
         {| transportType := "stdio";
            serverConfig := {| command := Some "uvx";
                               args := Some ["mcp-server-time"];
                               env := None; cwd := None; sseUrl := None |} |}
         [Some "spawn failed"])
    = Some (r, this')
    ∧ (k <= 2)%nat
    ∧ sleeps (trace this') = repeat 1000 k
    ∧ rewrites (trace this')
      = {| command := Some "uvx"; args := Some ["mcp-server-time"];
           env := None; cwd := None; sseUrl := None |}
        :: repeat (generateCallStdioServerCommand "win32"
                     {| command := Some "uvx"; args := Some ["mcp-server-time"];
                        env := None; cwd := None; sseUrl := None |}) k
    ∧ clientConfig this'
      = {| transportType := "stdio";
           serverConfig := generateCallStdioServerCommand "win32"
                             {| command := Some "uvx";
                                args := Some ["mcp-server-time"];
                                env := None; cwd := None; sseUrl := None |} |}
    ∧ generateCallStdioServerCommand "win32"
        (generateCallStdioServerCommand "win32"
           {| command := Some "uvx"; args := Some ["mcp-server-time"];
              env := None; cwd := None; sseUrl := None |})
      = generateCallStdioServerCommand "win32"
          {| command := Some "uvx"; args := Some ["mcp-server-time"];
             env := None; cwd := None; sseUrl := None |}.
Proof.
  apply (connectToServer_rewrites "win32" URL_table scripted
           (new_MCPClient scripted
              {| transportType := "stdio";
                 serverConfig := {| command := Some "uvx";
                                    args := Some ["mcp-server-time"];
                                    env := None; cwd := None;
                                    sseUrl := None |} |}
              [Some "spawn failed"])).
  reflexivity.
Defined.

(** ** listTools and callTool *)

Lemma listToolsAttempt_eq sdk (retries : Z) (this : MCPClient sdk) :
  listToolsAttempt sdk retries this
  = match sdk_listTools sdk (mcpClient this) with
    | (Returned toolsResult, s) =>
        Some (Returned (Leave (Some toolsResult)), after this s [EvListTools])
    | (Thrown e, s) =>
        if retries - 1 =? 0
        then Some (Thrown (FromSdk e), after this s [EvListTools])
        else Some (Returned (Again (retries - 1)),
                   after this s [EvListTools; EvSleep 1000])
    end.
Proof.
  unfold listToolsAttempt, try_catch, bind, sleep, emit, call_sdk, ret, throw,
    after.
  cbn [mcpClient transport clientConfig trace].
  destruct (sdk_listTools sdk (mcpClient this)) as [[res | e] s]; cbn;
    [done |].
  destruct (retries - 1 =? 0); cbn; by rewrite <- ?app_assoc.
Qed.

Lemma after_after {sdk : Sdk} (this : MCPClient sdk) s1 s2 evs1 evs2 :
  after (after this s1 evs1) s2 evs2 = after this s2 (evs1 ++ evs2).
Proof. unfold after. cbn. by rewrite app_assoc. Qed.

Lemma listToolsLoop_step sdk (fuel : nat) (retries : Z)
    (this : MCPClient sdk) :
  0 < retries ->
  listToolsLoop sdk (S fuel) retries this
  = match listToolsAttempt sdk retries this with
    | Some (Returned (Leave toolsResult), this') =>
        Some (Returned toolsResult, this')
    | Some (Returned (Again retries'), this') =>
        listToolsLoop sdk fuel retries' this'
    | Some (Thrown e, this') => Some (Thrown e, this')
    | None => None
    end.
Proof.
  intros H. cbn [listToolsLoop].
  destruct (Z.ltb_spec 0 retries); [| lia].
  unfold bind. destruct (listToolsAttempt sdk retries this) as [[[[]|]?]|]; done.
Qed.

Lemma listTools_eq sdk (this : MCPClient sdk) :
  listTools sdk this
  = match listToolsLoop sdk 4 3 this with
    | Some (Returned (Some toolsResult), this') =>
        Some (Returned (toolsOf toolsResult), this')
    | Some (Returned None, this') => Some (Returned [], this')
    | Some (Thrown e, this') => Some (Thrown e, this')
    | None => None
    end.
Proof.
  unfold listTools, try_catch, bind, ret, throw.
  destruct (listToolsLoop sdk 4 3 this) as [[[[]|]?]|]; done.
Qed.

Ltac listTools_turn H :=
  rewrite listToolsLoop_step by done;
  rewrite listToolsAttempt_eq; cbn [mcpClient after];
  rewrite H;
  try change (3 - 1) with 2; try change (2 - 1) with 1;
  try change (1 - 1) with 0; cbn [Z.eqb];
  rewrite ?after_after; cbn [app].

(** C5. [listTools] makes at most three calls of the SDK's [listTools], with
    a wait of 1000 ms between two consecutive calls and no other wait.  When
    a call is fulfilled, at the first, second or third attempt, it returns
    the tool list of that result, the empty list when the result carries no
    tool list; when all three calls are rejected it throws the error of the
    third. *)
Theorem listTools_spec (sdk : Sdk) (this : MCPClient sdk) :
  (forall toolsResult s1,
     sdk_listTools sdk (mcpClient this) = (Returned toolsResult, s1) ->
     listTools sdk this
     = Some (Returned (toolsOf toolsResult), after this s1 [EvListTools]))
  ∧ (forall e1 s1 toolsResult s2,
       sdk_listTools sdk (mcpClient this) = (Thrown e1, s1) ->
       sdk_listTools sdk s1 = (Returned toolsResult, s2) ->
       listTools sdk this
       = Some (Returned (toolsOf toolsResult),
               after this s2 [EvListTools; EvSleep 1000; EvListTools]))
  ∧ (forall e1 s1 e2 s2 toolsResult s3,
       sdk_listTools sdk (mcpClient this) = (Thrown e1, s1) ->
       sdk_listTools sdk s1 = (Thrown e2, s2) ->
       sdk_listTools sdk s2 = (Returned toolsResult, s3) ->
       listTools sdk this
       = Some (Returned (toolsOf toolsResult),
               after this s3 [EvListTools; EvSleep 1000; EvListTools;
                              EvSleep 1000; EvListTools]))
  ∧ (forall e1 s1 e2 s2 e3 s3,
       sdk_listTools sdk (mcpClient this) = (Thrown e1, s1) ->
       sdk_listTools sdk s1 = (Thrown e2, s2) ->
       sdk_listTools sdk s2 = (Thrown e3, s3) ->
       listTools sdk this
       = Some (Thrown (FromSdk e3),
               after this s3 [EvListTools; EvSleep 1000; EvListTools;
                              EvSleep 1000; EvListTools]))
  ∧ (exists r this',
       listTools sdk this = Some (r, this')
       ∧ (listToolsCalls (trace this')
          <= listToolsCalls (trace this) + 3)%nat)
  ∧ (forall toolsResult : ListToolsResult (Tool sdk),
       tools toolsResult = None ∨ tools toolsResult = Some [] ->
       toolsOf toolsResult = []).
Proof.
  rewrite listTools_eq.
  assert (HA : forall toolsResult s1,
     sdk_listTools sdk (mcpClient this) = (Returned toolsResult, s1) ->
     listToolsLoop sdk 4 3 this
     = Some (Returned (Some toolsResult), after this s1 [EvListTools])).
  { intros r s1 H1. by listTools_turn H1. }
  assert (HB : forall e1 s1 toolsResult s2,
     sdk_listTools sdk (mcpClient this) = (Thrown e1, s1) ->
     sdk_listTools sdk s1 = (Returned toolsResult, s2) ->
     listToolsLoop sdk 4 3 this
     = Some (Returned (Some toolsResult),
             after this s2 [EvListTools; EvSleep 1000; EvListTools])).
  { intros e1 s1 r s2 H1 H2. listTools_turn H1. by listTools_turn H2. }
  assert (HC : forall e1 s1 e2 s2 toolsResult s3,
     sdk_listTools sdk (mcpClient this) = (Thrown e1, s1) ->
     sdk_listTools sdk s1 = (Thrown e2, s2) ->
     sdk_listTools sdk s2 = (Returned toolsResult, s3) ->
     listToolsLoop sdk 4 3 this
     = Some (Returned (Some toolsResult),
             after this s3 [EvListTools; EvSleep 1000; EvListTools;
                            EvSleep 1000; EvListTools])).
  { intros e1 s1 e2 s2 r s3 H1 H2 H3.
    listTools_turn H1. listTools_turn H2. by listTools_turn H3. }
  assert (HD : forall e1 s1 e2 s2 e3 s3,
     sdk_listTools sdk (mcpClient this) = (Thrown e1, s1) ->
     sdk_listTools sdk s1 = (Thrown e2, s2) ->
     sdk_listTools sdk s2 = (Thrown e3, s3) ->
     listToolsLoop sdk 4 3 this
     = Some (Thrown (FromSdk e3),
             after this s3 [EvListTools; EvSleep 1000; EvListTools;
                            EvSleep 1000; EvListTools])).
  { intros e1 s1 e2 s2 e3 s3 H1 H2 H3.
    listTools_turn H1. listTools_turn H2. by listTools_turn H3. }
  split; [intros r s1 H1; by rewrite (HA _ _ H1) |].
  split; [intros e1 s1 r s2 H1 H2; by rewrite (HB _ _ _ _ H1 H2) |].
  split; [intros e1 s1 e2 s2 r s3 H1 H2 H3;
          by rewrite (HC _ _ _ _ _ _ H1 H2 H3) |].
  split; [intros e1 s1 e2 s2 e3 s3 H1 H2 H3;
          by rewrite (HD _ _ _ _ _ _ H1 H2 H3) |].
  split.
  - destruct (sdk_listTools sdk (mcpClient this)) as [[r1 | e1] s1] eqn:H1.
    { rewrite (HA _ _ eq_refl). eexists _, _. split; [reflexivity |].
      unfold after; cbn [trace]. rewrite listToolsCalls_app. cbn. lia. }
    destruct (sdk_listTools sdk s1) as [[r2 | e2] s2] eqn:H2.
    { rewrite (HB _ _ _ _ eq_refl H2). eexists _, _. split; [reflexivity |].
      unfold after; cbn [trace]. rewrite listToolsCalls_app. cbn. lia. }
    destruct (sdk_listTools sdk s2) as [[r3 | e3] s3] eqn:H3.
    { rewrite (HC _ _ _ _ _ _ eq_refl H2 H3). eexists _, _.
      split; [reflexivity |].
      unfold after; cbn [trace]. rewrite listToolsCalls_app. cbn. lia. }
    rewrite (HD _ _ _ _ _ _ eq_refl H2 H3). eexists _, _. split; [reflexivity |].
    unfold after; cbn [trace]. rewrite listToolsCalls_app. cbn. lia.
  - intros r [H | H]; unfold toolsOf; by rewrite H.
Qed.

Lemma listTools_spec_witness :
  listTools scripted
    (new_MCPClient scripted
       {| transportType := "sse";
          serverConfig := {| command := None; args := None; env := None;
                             cwd := None;
                             sseUrl := Some "http://localhost:3000/sse" |} |}
       [Some "not ready"; Some "not ready"; None])
  = Some (Returned ["A"; "B"],
          after
            (new_MCPClient scripted
               {| transportType := "sse";
                  serverConfig := {| command := None; args := None; env := None;
                                     cwd := None;
                                     sseUrl := Some "http://localhost:3000/sse" |} |}
               [Some "not ready"; Some "not ready"; None])
            []
            [EvListTools; EvSleep 1000; EvListTools; EvSleep 1000;
             EvListTools])
  ∧ listTools scripted
      (new_MCPClient scripted
         {| transportType := "sse";
            serverConfig := {| command := None; args := None; env := None;
                               cwd := None;
                               sseUrl := Some "http://localhost:3000/sse" |} |}
         [Some "first"; Some "second"; Some "third"; None])
    = Some (Thrown (FromSdk ("third" : SdkError scripted)),
            after
              (new_MCPClient scripted
                 {| transportType := "sse";
                    serverConfig := {| command := None; args := None;
                                       env := None; cwd := None;
                                       sseUrl := Some "http://localhost:3000/sse" |} |}
                 [Some "first"; Some "second"; Some "third"; None])
              [None]
              [EvListTools; EvSleep 1000; EvListTools; EvSleep 1000;
               EvListTools]).
Proof.
  pose (cfg := {| transportType := "sse";
                  serverConfig := {| command := None; args := None;
                                     env := None; cwd := None;
                                     sseUrl := Some "http://localhost:3000/sse" |} |}).
  split.
  - exact (proj1 (proj2 (proj2 (listTools_spec scripted
             (new_MCPClient scripted cfg
                [Some "not ready"; Some "not ready"; None]))))
             "not ready" [Some "not ready"; None] "not ready" [None]
             {| tools := Some ["A"; "B"] |} [] eq_refl eq_refl eq_refl).
  - exact (proj1 (proj2 (proj2 (proj2 (listTools_spec scripted
             (new_MCPClient scripted cfg
                [Some "first"; Some "second"; Some "third"; None])))))
             "first" [Some "second"; Some "third"; None]
             "second" [Some "third"; None] "third" [None]
             eq_refl eq_refl eq_refl).
Defined.

(** C6. [callTool] makes exactly one call of the SDK's [callTool], with the
    request [{name, arguments}], no result schema and the options
    [{timeout: 300000}] (five minutes), and no wait; whatever that call
    yields, a result or a thrown error (a timeout included), is what
    [callTool] yields, unchanged. *)
Theorem callTool_spec (sdk : Sdk) (this : MCPClient sdk) (toolName : string)
    (toolArgs : ToolArgs sdk) :
  let request := {| name := toolName; arguments := toolArgs |} in
  let options := {| timeout := 300000 |} in
  callTool sdk toolName toolArgs this
  = Some (match fst (sdk_callTool sdk request None options (mcpClient this))
          with
          | Returned result => Returned result
          | Thrown e => Thrown (FromSdk e)
          end,
          after this
            (snd (sdk_callTool sdk request None options (mcpClient this)))
            [EvCallTool request None options]).
Proof.
  unfold callTool, try_catch, bind, emit, call_sdk, ret, throw, after.
  cbn [mcpClient transport clientConfig trace].
  change (5 * 60 * 1000) with 300000.
  destruct (sdk_callTool sdk _ None _ (mcpClient this)) as [[result | e] s];
    reflexivity.
Qed.

Lemma callTool_spec_witness :
  callTool scripted "x" ([] : ToolArgs scripted)
    (new_MCPClient scripted
       {| transportType := "stdio";
          serverConfig := {| command := Some "node"; args := None; env := None;
                             cwd := None; sseUrl := None |} |}
       [Some "request timed out"; None])
  = Some (Thrown (FromSdk ("request timed out" : SdkError scripted)),
          after
            (new_MCPClient scripted
               {| transportType := "stdio";
                  serverConfig := {| command := Some "node"; args := None;
                                     env := None; cwd := None;
                                     sseUrl := None |} |}
               [Some "request timed out"; None])
            [None]
            [EvCallTool (sdk:=scripted)
               {| name := "x"; arguments := [] : ToolArgs scripted |} None
               {| timeout := 300000 |}]).
Proof.
  exact (callTool_spec scripted
           (new_MCPClient scripted
              {| transportType := "stdio";
                 serverConfig := {| command := Some "node"; args := None;
                                    env := None; cwd := None;
                                    sseUrl := None |} |}
              [Some "request timed out"; None])
           "x" []).
Defined.

(** ** Termination of the connection loop *)

Lemma connectAttempt_total platform URL_parse sdk retries
    (this : MCPClient sdk) :
  exists r this',
    connectAttempt platform URL_parse sdk retries this = Some (r, this')
    ∧ forall n, r = Returned (Again n) ->
        n = retries + 1 ∧ n < maxRetries.
Proof.
  rewrite connectAttempt_eq.
  destruct (createTransport URL_parse _) as [t | e].
  - destruct (sdk_connect sdk t (mcpClient this)) as [[[] | e] s].
    + eexists _, _. split; [reflexivity | done].
    + destruct (caught_cases retries (FromSdk e)
                  (connected platform this t s)) as [[? ->] | [? ->]];
        eexists _, _; (split; [reflexivity |]); intros n [= <-]; done.
  - destruct (caught_cases retries (Own e) (prepared platform this))
      as [[? ->] | [? ->]];
      eexists _, _; (split; [reflexivity |]); intros n [= <-]; done.
Qed.

Lemma connectLoop_total platform URL_parse sdk (fuel : nat) :
  forall (retries : Z) (this : MCPClient sdk),
    (Z.to_nat (maxRetries - retries) < fuel)%nat ->
    exists r this',
      connectLoop platform URL_parse sdk fuel retries this = Some (r, this').
Proof.
  induction fuel as [| fuel IH]; intros retries this Hfuel; [lia |].
  destruct (Z.lt_ge_cases retries maxRetries) as [Hlt | Hge].
  - rewrite connectLoop_step by done.
    destruct (connectAttempt_total platform URL_parse sdk retries this)
      as (r & this1 & -> & Hagain).
    destruct r as [[[] | n] | e]; [by eexists _, _ | | by eexists _, _].
    destruct (Hagain n eq_refl) as [-> Hn]. apply IH. lia.
  - cbn [connectLoop]. destruct (Z.ltb_spec retries maxRetries); [lia |].
    by eexists _, _.
Qed.

(** Whatever the configuration and the SDK client do, the fuel given to the
    loop of [connectToServer] is enough: the method returns or throws. *)
Lemma connectToServer_terminates platform URL_parse sdk
    (this : MCPClient sdk) :
  exists r this', connectToServer platform URL_parse sdk this = Some (r, this').
Proof. apply connectLoop_total. unfold maxRetries. lia. Qed.

(** * Further properties *)

(** ** The rewriter on win32 and on absent fields *)

Lemma append_inv_head (p a b : string) : p +:+ a = p +:+ b -> a = b.
Proof. induction p as [| c p IH]; cbn; [done |]. intros [= H]. by apply IH. Qed.

Lemma or_undefined_idempotent (c : option string) :
  or_undefined (or_undefined c) = or_undefined c.
Proof. by destruct c as [[| a s] |]. Qed.

Lemma runner_rewrite platform sc :
  command sc = Some "npx" ∨ command sc = Some "uvx" ->
  generateCallStdioServerCommand platform sc
  = if String.eqb (or_empty (command sc)) "npx"
    then generateNpxCommand platform sc
    else generateUvxCommand platform sc.
Proof.
  intros [H | H]; unfold generateCallStdioServerCommand; by rewrite H.
Qed.


(** X2. On a platform other than win32, two runner configurations that
    differ only in their argument lists rewrite to the same configuration
    exactly when the two lists have the same join by single spaces; in
    particular a list and the one-element list holding its join are never
    told apart. *)
Theorem rewriter_args_collapse (platform : string) (sc : ServerConfig)
    (a b : list string) :
  platform ≠ "win32" ->
  command sc = Some "npx" ∨ command sc = Some "uvx" ->
  (generateCallStdioServerCommand platform (withArgs sc (Some a))
   = generateCallStdioServerCommand platform (withArgs sc (Some b))
   <-> join " " a = join " " b)
  ∧ generateCallStdioServerCommand platform (withArgs sc (Some [join " " a]))
    = generateCallStdioServerCommand platform (withArgs sc (Some a)).
Proof.
  intros Hunix Hc.
  assert (Hiff : forall a b,
    generateCallStdioServerCommand platform (withArgs sc (Some a))
    = generateCallStdioServerCommand platform (withArgs sc (Some b))
    <-> join " " a = join " " b).
  { clear a b. intros a b.
    rewrite !runner_rewrite by done. cbn [withArgs command].
    unfold generateNpxCommand, generateUvxCommand.
    rewrite (eqb_ne _ _ Hunix). cbn -[join String.app].
    destruct (String.eqb (or_empty (command sc)) "npx"); split.
    - intros [= H]. by apply append_inv_head in H.
    - by intros ->.
    - intros [= H]. by apply append_inv_head in H.
    - by intros ->. }
  split; [apply Hiff |]. by apply Hiff.
Qed.

Lemma rewriter_args_collapse_witness :
  generateCallStdioServerCommand "linux"
    (withArgs {| command := Some "npx"; args := None; env := None;
                 cwd := None; sseUrl := None |}
       (Some ["-y"; "pkg"; "--root"; "/tmp/my dir"]))
  = generateCallStdioServerCommand "linux"
      (withArgs {| command := Some "npx"; args := None; env := None;
                   cwd := None; sseUrl := None |}
         (Some ["-y pkg"; "--root /tmp/my"; "dir"])).
Proof.
  assert (H : "linux" ≠ "win32") by discriminate.
  exact (proj2 (proj1 (rewriter_args_collapse "linux"
           {| command := Some "npx"; args := None; env := None;
              cwd := None; sseUrl := None |}
           ["-y"; "pkg"; "--root"; "/tmp/my dir"]
           ["-y pkg"; "--root /tmp/my"; "dir"]
           H (or_introl eq_refl))) eq_refl).
Defined.

(** X3. For a runner configuration the result of the rewriter is fully
    populated and depends only on the command, the argument list with an
    absent one read as empty, the environment with an absent one read as
    empty, and the working directory with an empty one read as absent: the
    command, the arguments and the environment are always present, and
    [sseUrl] is dropped. *)
Theorem rewriter_reads_defaults (platform : string) (sc sc' : ServerConfig) :
  command sc = Some "npx" ∨ command sc = Some "uvx" ->
  command sc' = command sc ->
  default [] (args sc') = default [] (args sc) ->
  default ∅ (env sc') = default ∅ (env sc) ->
  or_undefined (cwd sc') = or_undefined (cwd sc) ->
  generateCallStdioServerCommand platform sc'
  = generateCallStdioServerCommand platform sc
  ∧ is_Some (command (generateCallStdioServerCommand platform sc))
  ∧ is_Some (args (generateCallStdioServerCommand platform sc))
  ∧ is_Some (env (generateCallStdioServerCommand platform sc))
  ∧ sseUrl (generateCallStdioServerCommand platform sc) = None.
Proof.
  intros Hc Hc' Ha He Hw.
  assert (Hc2 : command sc' = Some "npx" ∨ command sc' = Some "uvx")
    by (by rewrite Hc').
  rewrite (runner_rewrite _ _ Hc), (runner_rewrite _ _ Hc2), Hc'.
  unfold generateNpxCommand, generateUvxCommand. rewrite Ha, He, Hw.
  split; [done |].
  destruct (String.eqb (or_empty (command sc)) "npx"),
    (String.eqb platform "win32"); cbn; eauto.
Qed.

Lemma rewriter_reads_defaults_witness :
  generateCallStdioServerCommand "darwin"
    {| command := Some "uvx"; args := None; env := Some ∅;
       cwd := Some ""; sseUrl := Some "http://localhost:3000/sse" |}
  = generateCallStdioServerCommand "darwin"
      {| command := Some "uvx"; args := Some []; env := None;
         cwd := None; sseUrl := None |}.
Proof.
  apply (rewriter_reads_defaults "darwin"
           {| command := Some "uvx"; args := Some []; env := None;
              cwd := None; sseUrl := None |}
           {| command := Some "uvx"; args := None; env := Some ∅;
              cwd := Some ""; sseUrl := Some "http://localhost:3000/sse" |});
    [by right | reflexivity ..].
Defined.

(** ** The selector after the rewriter *)

(** X4. For a stdio configuration whose command is a runner, the handle
    built from the rewritten configuration launches the shell, never the
    runner itself: [createTransport] returns a stdio handle whose command is
    "cmd" on win32 and "bash" elsewhere, whose arguments are the rewritten
    ones, whose environment is present and binds the runner's registry
    variable, and whose working directory is the caller's (an empty one read
    as absent); it does not throw. *)
Theorem createTransport_after_rewrite (platform : string)
    (URL_parse : string -> option URL) (sc : ServerConfig) :
  command sc = Some "npx" ∨ command sc = Some "uvx" ->
  exists (shell : string) (a : list string) (e : gmap string string),
    createTransport URL_parse
      {| transportType := "stdio";
         serverConfig := generateCallStdioServerCommand platform sc |}
    = Returned (StdioClientTransport
                  {| sp_command := shell; sp_args := a; sp_env := Some e;
                     sp_cwd := or_undefined (cwd sc) |})
    ∧ (platform = "win32" ∧ shell = "cmd"
       ∨ platform ≠ "win32" ∧ shell = "bash")
    ∧ args (generateCallStdioServerCommand platform sc) = Some a
    ∧ (command sc = Some "npx" ->
         e !! "NPM_CONFIG_REGISTRY" = Some "https://registry.npmmirror.com")
    ∧ (command sc = Some "uvx" ->
         e !! "UV_DEFAULT_INDEX"
         = Some "https://pypi.tuna.tsinghua.edu.cn/simple").
Proof.
  intros Hc. rewrite (runner_rewrite _ _ Hc).
  unfold createTransport, generateNpxCommand, generateUvxCommand.
  cbn [transportType serverConfig String.eqb Ascii.eqb Bool.eqb].
  destruct Hc as [Hc | Hc]; rewrite Hc; cbn [or_empty truthy default];
    destruct (String.eqb_spec platform "win32") as [Hp | Hp];
    cbn -[or_undefined]; rewrite or_undefined_idempotent;
    eexists _, _, _; (split; [reflexivity |]);
    (split; [by auto |]); (split; [reflexivity |]);
    (split; intros ?; first [apply lookup_insert_eq | done]).
Qed.

Lemma createTransport_after_rewrite_witness :
  exists (shell : string) (a : list string) (e : gmap string string),
    createTransport URL_table
      {| transportType := "stdio";
         serverConfig :=
           generateCallStdioServerCommand "linux"
             {| command := Some "uvx"; args := Some ["mcp-server-time"];
                env := None; cwd := Some "/srv"; sseUrl := None |} |}
    = Returned (StdioClientTransport
                  {| sp_command := shell; sp_args := a; sp_env := Some e;
                     sp_cwd := Some "/srv" |})
    ∧ ("linux" = "win32" ∧ shell = "cmd" ∨ "linux" ≠ "win32" ∧ shell = "bash")
    ∧ args (generateCallStdioServerCommand "linux"
              {| command := Some "uvx"; args := Some ["mcp-server-time"];
                 env := None; cwd := Some "/srv"; sseUrl := None |})
      = Some a
    ∧ (Some "uvx" = Some "npx" ->
         e !! "NPM_CONFIG_REGISTRY" = Some "https://registry.npmmirror.com")
    ∧ (Some "uvx" = Some "uvx" ->
         e !! "UV_DEFAULT_INDEX"
         = Some "https://pypi.tuna.tsinghua.edu.cn/simple").
Proof.
  apply (createTransport_after_rewrite "linux" URL_table
           {| command := Some "uvx"; args := Some ["mcp-server-time"];
              env := None; cwd := Some "/srv"; sseUrl := None |}).
  by right.
Defined.

(** X5. Storing the rewritten configuration never changes whether the
    selector accepts it: [createTransport] throws [e] on the configuration
    [connectToServer] stores exactly when it throws [e] on the original one.
    So a configuration error seen by [connectToServer] is an error of the
    caller's configuration, and the rewriter never causes one. *)
Theorem storedConfig_same_errors (platform : string)
    (URL_parse : string -> option URL) (cfg : MCPClientConfig)
    (e : ClientError) :
  createTransport URL_parse (storedConfig platform cfg) = Thrown e
  <-> createTransport URL_parse cfg = Thrown e.
Proof.
  split.
  - intros H. destruct (createTransport URL_parse cfg) as [t0 | e0] eqn:H0.
    + destruct (storedConfig_accepted platform _ _ _ H0) as [t Ht].
      congruence.
    + rewrite (storedConfig_rejected platform _ _ _ H0) in H. congruence.
  - intros H. by rewrite (storedConfig_rejected platform _ _ _ H).
Qed.

(** ** Every course of [connectToServer] *)

Lemma handles_plus built (a b : nat) :
  handles built a ++ handles built b = handles built (a + b).
Proof. destruct built; cbn; [by rewrite repeat_app | done]. Qed.

Lemma rewriteEvents_rewrites_other {sdk : Sdk} platform cfg :
  String.eqb (transportType cfg) "stdio" = false ->
  rewrites (rewriteEvents (sdk:=sdk) platform cfg) = [].
Proof. unfold rewriteEvents. by intros ->. Qed.

Lemma storedConfig_other platform cfg :
  String.eqb (transportType cfg) "stdio" = false ->
  storedConfig platform cfg = cfg.
Proof. unfold storedConfig. by intros ->. Qed.

Section ConnectCourse.

Variable platform : string.
Variable URL_parse : string -> option URL.
Variable sdk : Sdk.

(** All that one attempt can do. *)
Lemma connectAttempt_cases (retries : Z) (this : MCPClient sdk) :
  exists o this1,
    connectAttempt platform URL_parse sdk retries this = Some (o, this1)
    ∧ clientConfig this1 = storedConfig platform (clientConfig this)
    ∧ (String.eqb (transportType (clientConfig this)) "stdio" = false ->
       rewrites (trace this1) = rewrites (trace this))
    ∧ connects (trace this1)
      = connects (trace this)
          ++ handles (createTransport URL_parse
                        (storedConfig platform (clientConfig this))) 1
    ∧ (forall t,
         createTransport URL_parse (storedConfig platform (clientConfig this))
         = Returned t -> transport this1 = Some t)
    ∧ (forall e,
         createTransport URL_parse (storedConfig platform (clientConfig this))
         = Thrown e ->
         transport this1 = transport this ∧ mcpClient this1 = mcpClient this)
    ∧ ((o = Returned (Leave tt)
        ∧ sleeps (trace this1) = sleeps (trace this)
        ∧ failures (trace this1) = failures (trace this)
        ∧ exists t,
            createTransport URL_parse
              (storedConfig platform (clientConfig this)) = Returned t)
       ∨ (o = Returned (Again (retries + 1)) ∧ retries + 1 < maxRetries
          ∧ sleeps (trace this1) = sleeps (trace this) ++ [1000]
          ∧ failures (trace this1)
            = failures (trace this) ++ [maxRetries - (retries + 1)])
       ∨ (exists e, o = Thrown e ∧ maxRetries <= retries + 1
          ∧ sleeps (trace this1) = sleeps (trace this)
          ∧ failures (trace this1)
            = failures (trace this) ++ [maxRetries - (retries + 1)]
          ∧ match createTransport URL_parse
                    (storedConfig platform (clientConfig this)) with
            | Returned _ => exists e', e = FromSdk e'
            | Thrown e' => e = Own e'
            end)).
Proof.
  rewrite connectAttempt_eq.
  assert (HR : String.eqb (transportType (clientConfig this)) "stdio" = false
               -> rewrites (rewriteEvents (sdk:=sdk) platform
                              (clientConfig this)) = [])
    by apply rewriteEvents_rewrites_other.
  destruct (createTransport URL_parse _) as [t | e] eqn:Hct.
  - destruct (sdk_connect sdk t (mcpClient this)) as [[[] | e] s].
    + eexists _, _. split; [reflexivity |]. split; [done |].
      split; [intros Ho; read_trace; by rewrite (HR Ho), app_nil_r |].
      split; [by read_trace |]. split; [by intros ? [= <-] |].
      split; [done |]. left. split; [done |].
      split; [by read_trace |]. split; [by read_trace |]. by exists t.
    + destruct (caught_cases retries (FromSdk e)
                  (connected platform this t s)) as [[? ->] | [? ->]];
        eexists _, _; (split; [reflexivity |]); (split; [done |]);
        (split; [intros Ho; read_trace; by rewrite (HR Ho), app_nil_r |]);
        (split; [by read_trace |]); (split; [by intros ? [= <-] |]);
        (split; [done |]); right.
      * right. exists (FromSdk e). split; [done |]. split; [done |].
        split; [by read_trace |]. split; [by read_trace |]. by exists e.
      * left. split; [done |]. split; [done |].
        split; by read_trace.
  - destruct (caught_cases retries (Own e) (prepared platform this))
      as [[? ->] | [? ->]];
      eexists _, _; (split; [reflexivity |]); (split; [done |]);
      (split; [intros Ho; read_trace; by rewrite (HR Ho), app_nil_r |]);
      (split; [by read_trace |]); (split; [done |]);
      (split; [by intros ? [= <-] |]); right.
    + right. exists (Own e). split; [done |]. split; [done |].
      split; [by read_trace |]. split; [by read_trace |]. done.
    + left. split; [done |]. split; [done |]. split; by read_trace.
Qed.

(** The loop from any point of the retry budget. *)
Lemma connectLoop_course (fuel : nat) :
  forall (retries : Z) (this : MCPClient sdk),
    0 <= retries < maxRetries ->
    (Z.to_nat (maxRetries - retries) <= fuel)%nat ->
    exists r this' (k : nat),
      connectLoop platform URL_parse sdk fuel retries this = Some (r, this')
      ∧ (k <= Z.to_nat (maxRetries - 1 - retries))%nat
      ∧ clientConfig this' = storedConfig platform (clientConfig this)
      ∧ (String.eqb (transportType (clientConfig this)) "stdio" = false ->
         rewrites (trace this') = rewrites (trace this))
      ∧ sleeps (trace this') = sleeps (trace this) ++ repeat 1000 k
      ∧ connects (trace this')
        = connects (trace this)
            ++ handles (createTransport URL_parse
                          (storedConfig platform (clientConfig this))) (S k)
      ∧ (forall t,
           createTransport URL_parse
             (storedConfig platform (clientConfig this)) = Returned t ->
           transport this' = Some t)
      ∧ (forall e,
           createTransport URL_parse
             (storedConfig platform (clientConfig this)) = Thrown e ->
           transport this' = transport this
           ∧ mcpClient this' = mcpClient this)
      ∧ ((r = Returned tt
          ∧ failures (trace this')
            = failures (trace this)
                ++ countdown (maxRetries - (retries + 1)) k
          ∧ exists t,
              createTransport URL_parse
                (storedConfig platform (clientConfig this)) = Returned t)
         ∨ (exists e, r = Thrown e
            ∧ k = Z.to_nat (maxRetries - 1 - retries)
            ∧ failures (trace this')
              = failures (trace this)
                  ++ countdown (maxRetries - (retries + 1)) (S k)
            ∧ match createTransport URL_parse
                      (storedConfig platform (clientConfig this)) with
              | Returned _ => exists e', e = FromSdk e'
              | Thrown e' => e = Own e'
              end)).
Proof.
  induction fuel as [| fuel IH]; intros retries this Hr Hfuel;
    [unfold maxRetries in *; lia |].
  rewrite connectLoop_step by lia.
  destruct (connectAttempt_cases retries this)
    as (o & this1 & -> & Hcfg & Hrw & Hco & Htr & Hfr
        & [(-> & Hsl & Hfa & Hok)
          | [(-> & Hlt & Hsl & Hfa) | (e & -> & Hge & Hsl & Hfa & Hprov)]]).
  - exists (Returned tt), this1, 0%nat.
    split; [done |]. split; [lia |]. split; [done |]. split; [done |].
    split; [by rewrite Hsl, app_nil_r |]. split; [done |].
    split; [done |]. split; [done |]. left.
    split; [done |]. split; [by rewrite Hfa, app_nil_r | done].
  - destruct (IH (retries + 1) this1)
      as (r & this' & k & -> & Hk & Hcfg' & Hrw' & Hsl' & Hco' & Htr' & Hfr'
          & Hend); [lia | unfold maxRetries in *; lia |].
    rewrite Hcfg, storedConfig_idempotent in *.
    rewrite storedConfig_transportType in Hrw'.
    exists r, this', (S k). split; [done |].
    split; [unfold maxRetries in *; lia |]. split; [done |].
    split; [intros Ho; by rewrite Hrw', Hrw |].
    split; [rewrite Hsl', Hsl; cbn; by rewrite <- app_assoc |].
    split; [rewrite Hco', Hco, <- app_assoc; by rewrite handles_plus |].
    split; [done |].
    split; [intros e He; destruct (Hfr' e He) as [-> ->]; by apply (Hfr e) |].
    replace (maxRetries - (retries + 1 + 1))
      with (maxRetries - (retries + 1) - 1) in Hend by lia.
    destruct Hend as [(-> & Hfa' & Hok) | (e & -> & -> & Hfa' & Hprov)].
    + left. split; [done |]. split; [| done].
      rewrite Hfa', Hfa. cbn. by rewrite <- app_assoc.
    + right. exists e. split; [done |].
      split; [unfold maxRetries in *; lia |]. split; [| done].
      rewrite Hfa', Hfa. cbn. by rewrite <- app_assoc.
  - exists (Thrown e), this1, 0%nat.
    split; [done |]. split; [lia |]. split; [done |]. split; [done |].
    split; [by rewrite Hsl, app_nil_r |]. split; [done |].
    split; [done |]. split; [done |]. right. exists e.
    split; [done |]. split; [unfold maxRetries in *; lia |].
    split; [by rewrite Hfa | done].
Qed.

End ConnectCourse.






(** X9. For a transport type other than "stdio", [connectToServer] never
    calls the rewriter and leaves the stored configuration as it was,
    whatever the outcome. *)
Theorem connectToServer_other_transport (platform : string)
    (URL_parse : string -> option URL) (sdk : Sdk) (this this' : MCPClient sdk)
    (r : completion (Exn sdk) unit) :
  transportType (clientConfig this) ≠ "stdio" ->
  connectToServer platform URL_parse sdk this = Some (r, this') ->
  clientConfig this' = clientConfig this
  ∧ rewrites (trace this') = rewrites (trace this).
Proof.
  intros Hs Hrun. apply eqb_ne in Hs. unfold connectToServer in Hrun.
  destruct (connectLoop_course platform URL_parse sdk 4 0 this)
    as (r1 & this1 & k & Hrun1 & _ & Hcfg & Hrw & _);
    [done | unfold maxRetries; lia |].
  rewrite Hrun in Hrun1. injection Hrun1 as <- <-.
  rewrite (storedConfig_other _ _ Hs) in Hcfg. auto.
Qed.

Lemma connectToServer_other_transport_witness :
  exists this',
    connectToServer "win32" URL_table scripted
      (new_MCPClient scripted
         {| transportType := "sse";
            serverConfig := {| command := Some "npx"; args := None;
                               env := None; cwd := None;
                               sseUrl := Some "http://localhost:3000/sse" |} |}
         [Some "503"; None])
    = Some (Returned tt, this')
    ∧ clientConfig this'
      = {| transportType := "sse";
           serverConfig := {| command := Some "npx"; args := None;
                              env := None; cwd := None;
                              sseUrl := Some "http://localhost:3000/sse" |} |}
    ∧ rewrites (trace this') = [].
Proof.
  pose (this := new_MCPClient scripted
         {| transportType := "sse";
            serverConfig := {| command := Some "npx"; args := None;
                               env := None; cwd := None;
                               sseUrl := Some "http://localhost:3000/sse" |} |}
         [Some "503"; None]).
  assert (Hrun : exists this',
            connectToServer "win32" URL_table scripted this
            = Some (Returned tt, this'))
    by (vm_compute; eexists; reflexivity).
  destruct Hrun as [this' Hrun]. exists this'. split; [exact Hrun |].
  assert (Hs : transportType (clientConfig this) ≠ "stdio") by discriminate.
  exact (connectToServer_other_transport "win32" URL_table scripted
           this this' _ Hs Hrun).
Defined.

(** X10. Connecting again does not wrap the command a second time.  After
    any invocation of [connectToServer] on a stdio client, a further
    invocation ends too, finds the stored parameters already in rewritten
    form (the rewriter maps them to themselves at each of its [k + 1 <= 3]
    attempts) and leaves the stored configuration as the first invocation
    left it. *)
Theorem connectToServer_again (platform : string)
    (URL_parse : string -> option URL) (sdk : Sdk)
    (this this1 : MCPClient sdk) (r1 : completion (Exn sdk) unit) :
  transportType (clientConfig this) = "stdio" ->
  connectToServer platform URL_parse sdk this = Some (r1, this1) ->
  exists r2 this2 (k : nat),
    connectToServer platform URL_parse sdk this1 = Some (r2, this2)
    ∧ (k <= 2)%nat
    ∧ generateCallStdioServerCommand platform (serverConfig (clientConfig this1))
      = serverConfig (clientConfig this1)
    ∧ rewrites (trace this2)
      = rewrites (trace this1)
          ++ repeat (serverConfig (clientConfig this1)) (S k)
    ∧ clientConfig this2 = clientConfig this1.
Proof.
  intros Hs Hrun. unfold connectToServer in *.
  destruct (connectLoop_stdio platform URL_parse sdk 4 0 this Hs)
    as (r & this' & k1 & Hrun' & _ & Hcfg & _);
    [done | unfold maxRetries; lia |].
  rewrite Hrun in Hrun'. injection Hrun' as <- <-.
  assert (Hs1 : transportType (clientConfig this1) = "stdio")
    by (by rewrite Hcfg, storedConfig_transportType).
  assert (Hfix : storedConfig platform (clientConfig this1)
                 = clientConfig this1)
    by (by rewrite Hcfg, storedConfig_idempotent).
  destruct (connectLoop_stdio platform URL_parse sdk 4 0 this1 Hs1)
    as (r2 & this2 & k & Hrun2 & Hk & Hcfg2 & _ & Hrw);
    [done | unfold maxRetries; lia |].
  rewrite Hfix in Hcfg2, Hrw.
  exists r2, this2, k. split; [exact Hrun2 |].
  split; [unfold maxRetries in Hk; lia |].
  split; [| split; [exact Hrw | exact Hcfg2]].
  rewrite (storedConfig_stdio _ _ Hs1) in Hfix.
  by rewrite <- Hfix at 2.
Qed.

Lemma connectToServer_again_witness :
  exists this1 r2 this2 (k : nat),
    connectToServer "linux" URL_table scripted
      (new_MCPClient scripted
         {| transportType := "stdio";
            serverConfig := {| command := Some "npx";
                               args := Some ["-y"; "some-pkg"]; env := None;
                               cwd := None; sseUrl := None |} |}
         [None; Some "closed"; None])
    = Some (Returned tt, this1)
    ∧ connectToServer "linux" URL_table scripted this1 = Some (r2, this2)
    ∧ (k <= 2)%nat
    ∧ rewrites (trace this2)
      = rewrites (trace this1)
          ++ repeat (serverConfig (clientConfig this1)) (S k)
    ∧ clientConfig this2 = clientConfig this1.
Proof.
  pose (this := new_MCPClient scripted
         {| transportType := "stdio";
            serverConfig := {| command := Some "npx";
                               args := Some ["-y"; "some-pkg"]; env := None;
                               cwd := None; sseUrl := None |} |}
         [None; Some "closed"; None]).
  assert (Hrun : exists this1,
            connectToServer "linux" URL_table scripted this
            = Some (Returned tt, this1))
    by (vm_compute; eexists; reflexivity).
  destruct Hrun as [this1 Hrun].
  destruct (connectToServer_again "linux" URL_table scripted this this1 _
              eq_refl Hrun)
    as (r2 & this2 & k & Hrun2 & Hk & _ & Hrw & Hcfg).
  exists this1, r2, this2, k. auto.
Defined.

(** ** Every course of [listTools] *)

(** X11. Whatever [listTools] yields, it was reached in one of four ways,
    and the transport and the configuration are as before.  A returned list
    is the tool list of a fulfilled SDK call, the first, or the second after
    one rejection and one wait of 1000 ms, or the third after two of each.
    A thrown error is the one of a third consecutive rejection: [listTools]
    never throws before its three calls are used up, and never an error of
    its own. *)
Theorem listTools_inversion (sdk : Sdk) (this this' : MCPClient sdk)
    (r : completion (Exn sdk) (list (Tool sdk))) :
  listTools sdk this = Some (r, this') ->
  (exists toolsResult s1,
     sdk_listTools sdk (mcpClient this) = (Returned toolsResult, s1)
     ∧ r = Returned (toolsOf toolsResult)
     ∧ this' = after this s1 [EvListTools])
  ∨ (exists e1 s1 toolsResult s2,
       sdk_listTools sdk (mcpClient this) = (Thrown e1, s1)
       ∧ sdk_listTools sdk s1 = (Returned toolsResult, s2)
       ∧ r = Returned (toolsOf toolsResult)
       ∧ this' = after this s2 [EvListTools; EvSleep 1000; EvListTools])
  ∨ (exists e1 s1 e2 s2 toolsResult s3,
       sdk_listTools sdk (mcpClient this) = (Thrown e1, s1)
       ∧ sdk_listTools sdk s1 = (Thrown e2, s2)
       ∧ sdk_listTools sdk s2 = (Returned toolsResult, s3)
       ∧ r = Returned (toolsOf toolsResult)
       ∧ this' = after this s3 [EvListTools; EvSleep 1000; EvListTools;
                                EvSleep 1000; EvListTools])
  ∨ (exists e1 s1 e2 s2 e3 s3,
       sdk_listTools sdk (mcpClient this) = (Thrown e1, s1)
       ∧ sdk_listTools sdk s1 = (Thrown e2, s2)
       ∧ sdk_listTools sdk s2 = (Thrown e3, s3)
       ∧ r = Thrown (FromSdk e3)
       ∧ this' = after this s3 [EvListTools; EvSleep 1000; EvListTools;
                                EvSleep 1000; EvListTools]).
Proof.
  rewrite listTools_eq.
  destruct (sdk_listTools sdk (mcpClient this)) as [[r1 | e1] s1] eqn:H1.
  { listTools_turn H1. intros [= <- <-]. left. by exists r1, s1. }
  destruct (sdk_listTools sdk s1) as [[r2 | e2] s2] eqn:H2.
  { listTools_turn H1. listTools_turn H2. intros [= <- <-].
    right; left. by exists e1, s1, r2, s2. }
  destruct (sdk_listTools sdk s2) as [[r3 | e3] s3] eqn:H3.
  { listTools_turn H1. listTools_turn H2. listTools_turn H3.
    intros [= <- <-]. right; right; left. by exists e1, s1, e2, s2, r3, s3. }
  listTools_turn H1. listTools_turn H2. listTools_turn H3.
  intros [= <- <-]. right; right; right. by exists e1, s1, e2, s2, e3, s3.
Qed.

Lemma listTools_inversion_witness :
  exists r this',
    listTools scripted
      (new_MCPClient scripted
         {| transportType := "stdio";
            serverConfig := {| command := Some "node"; args := None;
                               env := None; cwd := None; sseUrl := None |} |}
         [Some "first"; Some "second"; Some "third"])
    = Some (r, this')
    ∧ transport this' = None
    ∧ clientConfig this'
      = {| transportType := "stdio";
           serverConfig := {| command := Some "node"; args := None;
                              env := None; cwd := None; sseUrl := None |} |}.
Proof.
  pose (this := new_MCPClient scripted
           {| transportType := "stdio";
              serverConfig := {| command := Some "node"; args := None;
                                 env := None; cwd := None; sseUrl := None |} |}
           [Some "first"; Some "second"; Some "third"]).
  assert (Hrun : exists r this', listTools scripted this = Some (r, this'))
    by (vm_compute; eexists _, _; reflexivity).
  destruct Hrun as (r & this' & Hrun).
  exists r, this'. split; [exact Hrun |].
  destruct (listTools_inversion scripted this this' r Hrun)
    as [(? & ? & _ & _ & ->)
       | [(? & ? & ? & ? & _ & _ & _ & ->)
         | [(? & ? & ? & ? & ? & ? & _ & _ & _ & _ & ->)
           | (? & ? & ? & ? & ? & ? & _ & _ & _ & _ & ->)]]];
    split; reflexivity.
Defined.
